(** * pneumonia_classification.py: the dataset loader and the CNN threshold

    A shallow embedding of [load_images] (source lines 23-47), of the
    path table [path_dict] (lines 15-17) and of the thresholding of the
    CNN predictions (line 169).

    The script talks to three external libraries.  Their behaviour is
    modelled as follows.
    - [os.listdir], [os.path.isfile] and [cv.imread] read a filesystem,
      which is a component of the [world] the loader runs in; every read
      is recorded in [w_reads].
    - [cv.resize] returns an image of the requested size; the pixel
      values it interpolates are a parameter ([cv_interp]) of the
      development.
    - [np.concatenate] follows numpy's shape rules for the sequences the
      loader hands to it.  *)

From Stdlib Require Import ZArith QArith Qpower Lqa Ascii String Floats.SpecFloat.
From stdpp Require Import gmap strings list.

Open Scope string_scope.
Open Scope list_scope.
Open Scope Z_scope.

(** ** Python exceptions and results *)

Inductive value_error :=
  | DimensionCountMismatch   (* "all the input arrays must have same number of dimensions" *)
  | DimensionMismatch        (* "all the input array dimensions except for the concatenation axis must match exactly" *)
  | InhomogeneousShape.      (* a list of arrays of different shapes *)

Inductive exn :=
  | KeyError (key : string)
  | OSError (path : string)
  | cv2_error
  | ValueError (why : value_error).

Inductive result (A : Type) :=
  | Ok (a : A)
  | Err (e : exn).
Arguments Ok {A} a.
Arguments Err {A} e.

Definition is_ok {A} (r : result A) : bool :=
  match r with Ok _ => true | Err _ => false end.

(** ** Images, the filesystem and the world *)

(** A decoded single-channel image: an intensity grid of [img_rows] by
    [img_cols] pixels. *)
Record image := Image {
  img_rows : nat;
  img_cols : nat;
  img_px : nat → nat → Z
}.

Definition img_shape (i : image) : list nat := [img_rows i; img_cols i].

(** What the three reading calls answer: the entries of a directory (in
    the order [listdir] gives them, [None] when the directory cannot be
    listed), whether a path is a regular file, and the decoded grayscale
    image of a path ([None] when [cv.imread] cannot read or decode it). *)
Record filesystem := Filesystem {
  fs_listdir : string → option (list string);
  fs_isfile : string → bool;
  fs_imread : string → option image
}.

Inductive read_op :=
  | Listdir (path : string)
  | Isfile (path : string)
  | Imread (path : string).

(** The state a call runs in: the module-level dictionary [path_dict],
    the filesystem, standard output (a list of lines) and the log of the
    reads done so far. *)
Record world := World {
  w_path_dict : gmap string (gmap string string);
  w_fs : filesystem;
  w_stdout : list string;
  w_reads : list read_op
}.

Definition emit (line : string) (w : world) : world :=
  World (w_path_dict w) (w_fs w) (w_stdout w ++ [line]) (w_reads w).

Definition log_read (op : read_op) (w : world) : world :=
  World (w_path_dict w) (w_fs w) (w_stdout w) (w_reads w ++ [op]).

(** ** The monad of the script: state and exceptions *)

Definition M (A : Type) : Type := world → result A * world.

Definition ret {A} (a : A) : M A := λ w, (Ok a, w).

Definition raise {A} (e : exn) : M A := λ w, (Err e, w).

Definition bind {A B} (m : M A) (f : A → M B) : M B :=
  λ w, match m w with
       | (Ok a, w') => f a w'
       | (Err e, w') => (Err e, w')
       end.

Declare Scope py_scope.
Delimit Scope py_scope with py.
Notation "'let*' x := m 'in' k" := (bind m (λ x, k))
  (at level 10, x name, m at level 100, k at level 200) : py_scope.
Notation "m ;;; k" := (bind m (λ _, k))
  (at level 100, k at level 200, right associativity) : py_scope.
Open Scope py_scope.

Definition lift {A} (r : result A) : M A := λ w, (r, w).

(** [print(a, b)] writes one line, the arguments separated by a space. *)
Definition print (a b : string) : M unit :=
  λ w, (Ok tt, emit (a +:+ " " +:+ b) w).

(** Reading the global [path_dict]. *)
Definition global_path_dict : M (gmap string (gmap string string)) :=
  λ w, (Ok (w_path_dict w), w).

(** [d[k]] on a dictionary with string keys. *)
Definition getitem {V} (d : gmap string V) (k : string) : M V :=
  match d !! k with
  | Some v => ret v
  | None => raise (KeyError k)
  end.

Definition listdir (path : string) : M (list string) :=
  λ w, (match fs_listdir (w_fs w) path with
        | Some names => Ok names
        | None => Err (OSError path)
        end, log_read (Listdir path) w).

Definition isfile (path : string) : M bool :=
  λ w, (Ok (fs_isfile (w_fs w) path), log_read (Isfile path) w).

Definition cv_imread (path : string) : M (option image) :=
  λ w, (Ok (fs_imread (w_fs w) path), log_read (Imread path) w).

(** ** os.path.join (posixpath, two arguments) *)

Definition startswith_sep (b : string) : bool :=
  match b with
  | String c _ => bool_decide (c = "/"%char)
  | EmptyString => false
  end.

Fixpoint endswith_sep (a : string) : bool :=
  match a with
  | EmptyString => false
  | String c EmptyString => bool_decide (c = "/"%char)
  | String _ rest => endswith_sep rest
  end.

Definition join (a b : string) : string :=
  if startswith_sep b then b
  else if bool_decide (a = "") || endswith_sep a then a +:+ b
  else a +:+ "/" +:+ b.

(** ** The path table (source lines 15-17) *)

Definition path_dict : gmap string (gmap string string) :=
  {[ "train" := {[ "normal" := "chest_xray/train/NORMAL/";
                   "pneumonia" := "chest_xray/train/PNEUMONIA/" ]};
     "test" := {[ "normal" := "chest_xray/test/NORMAL/";
                  "pneumonia" := "chest_xray/test/PNEUMONIA/" ]};
     "validation" := {[ "normal" := "chest_xray/val/NORMAL/";
                        "pneumonia" := "chest_xray/val/PNEUMONIA/" ]} ]}.

(** The world right after the module is loaded. *)
Definition boot (fs : filesystem) : world := World path_dict fs [] [].

(** ** numpy arrays of images *)

(** The arrays the loader builds are stacks of images: [arr_shape] is the
    numpy shape and [arr_items] the entries along axis 0. *)
Record ndarray := NDArray {
  arr_shape : list nat;
  arr_items : list image
}.

Definition same_shape (a b : image) : bool :=
  bool_decide (img_shape a = img_shape b).

(** [np.asarray] of a Python list of 2-D arrays.  The empty list becomes a
    1-D array of shape [(0,)]; [k] arrays of one shape [(r, c)] become an
    array of shape [(k, r, c)]. *)
Definition np_asarray (l : list image) : result ndarray :=
  match l with
  | [] => Ok (NDArray [0%nat] [])
  | first :: _ =>
      if forallb (same_shape first) l
      then Ok (NDArray (length l :: img_shape first) l)
      else Err (ValueError InhomogeneousShape)
  end.

(** [np.concatenate((a, b))] along axis 0. *)
Definition np_concatenate (a b : list image) : result ndarray :=
  match np_asarray a, np_asarray b with
  | Ok x, Ok y =>
      if negb (bool_decide (length (arr_shape x) = length (arr_shape y)))
      then Err (ValueError DimensionCountMismatch)
      else if negb (bool_decide (tail (arr_shape x) = tail (arr_shape y)))
      then Err (ValueError DimensionMismatch)
      else Ok (NDArray ((hd 0 (arr_shape x) + hd 0 (arr_shape y))%nat :: tail (arr_shape x))
                       (arr_items x ++ arr_items y))
  | Err e, _ => Err e
  | _, Err e => Err e
  end.

(** ** The loader *)

Section Loader.

(** The pixel values [cv.resize] computes for a source image and a target
    width and height (bilinear interpolation in OpenCV). *)
Variable cv_interp : image → nat → nat → nat → nat → Z.

(** [cv.resize(src, (width, height))].  OpenCV rejects a missing or empty
    source ("!ssize.empty()") and an empty target size. *)
Definition cv_resize (src : option image) (dsize : nat * nat) : result image :=
  match src with
  | None => Err cv2_error
  | Some img =>
      if (img_rows img =? 0)%nat || (img_cols img =? 0)%nat
         || (dsize.1 =? 0)%nat || (dsize.2 =? 0)%nat
      then Err cv2_error
      else Ok (Image dsize.2 dsize.1 (cv_interp img dsize.1 dsize.2))
  end.

(** [[image for image in names if isfile(join(dir, image))]] *)
Fixpoint regular_files (dir : string) (names : list string) : M (list string) :=
  match names with
  | [] => ret []
  | image :: rest =>
      let* keep := isfile (join dir image) in
      let* files := regular_files dir rest in
      ret (if keep then image :: files else files)
  end.

(** The two [for] loops (lines 33-35 and 38-40): [images] is the list the
    loop appends to. *)
Fixpoint read_samples (subset cls : string) (files : list string)
    (images : list image) : M (list image) :=
  match files with
  | [] => ret images
  | sample :: rest =>
      let* table := global_path_dict in
      let* paths := getitem table subset in
      let* dir := getitem paths cls in
      let* raw := cv_imread (dir +:+ sample) in
      let* image := lift (cv_resize raw (150, 150)%nat) in
      read_samples subset cls rest (images ++ [image])
  end.

Definition load_images (subset : string) : M (ndarray * list Z) :=
  print "Loading data, subset =" subset ;;;
  let* table := global_path_dict in
  let* paths := getitem table subset in
  let* pos_path := getitem paths "pneumonia" in
  let* table := global_path_dict in
  let* paths := getitem table subset in
  let* neg_path := getitem paths "normal" in
  let* names := listdir pos_path in
  let* pos_files := regular_files pos_path names in
  let* names := listdir neg_path in
  let* neg_files := regular_files neg_path names in
  let* pos_images := read_samples subset "pneumonia" pos_files [] in
  let labels := replicate (length pos_images) 1 in
  let* neg_images := read_samples subset "normal" neg_files [] in
  let labels := labels ++ replicate (length neg_images) 0 in
  let* images := lift (np_concatenate pos_images neg_images) in
  ret (images, labels).

End Loader.

(** ** What a call computes, as a function of the path table and the filesystem *)

Section Denotation.

Variable cv_interp : image → nat → nat → nat → nat → Z.

(** The image the loop body appends for one file name. *)
Definition decode (fs : filesystem) (dir sample : string) : result image :=
  cv_resize cv_interp (fs_imread fs (dir +:+ sample)) (150, 150)%nat.

(** The images of a list of file names; the first failure aborts. *)
Fixpoint decode_all (fs : filesystem) (dir : string) (files : list string)
    : result (list image) :=
  match files with
  | [] => Ok []
  | sample :: rest =>
      match decode fs dir sample with
      | Err e => Err e
      | Ok image =>
          match decode_all fs dir rest with
          | Err e => Err e
          | Ok images => Ok (image :: images)
          end
      end
  end.

End Denotation.

(** The regular files among the entries of a directory, in listing order. *)
Definition keep_regular (fs : filesystem) (dir : string) (names : list string)
    : list string :=
  List.filter (λ name, fs_isfile fs (join dir name)) names.

Definition files_of (fs : filesystem) (dir : string) : option (list string) :=
  keep_regular fs dir <$> fs_listdir fs dir.

(** A file is decodable when [cv.imread] yields image data for it. *)
Definition decodable (fs : filesystem) (dir sample : string) : Prop :=
  ∃ img, fs_imread fs (dir +:+ sample) = Some img
         ∧ img_rows img ≠ 0%nat ∧ img_cols img ≠ 0%nat.

(** The directory of a class of a split, in a path table. *)
Definition class_dir (table : gmap string (gmap string string))
    (subset cls : string) : option string :=
  table !! subset ≫= λ paths, paths !! cls.

(** ** A small filesystem for the examples *)

(** Nearest-neighbour sampling, one admissible choice of the interpolation. *)
Definition nearest (src : image) (width height : nat) (i j : nat) : Z :=
  img_px src (i * img_rows src / height)%nat (j * img_cols src / width)%nat.

Definition xray (rows cols : nat) : image :=
  Image rows cols (λ i j, Z.of_nat ((i + 2 * j) mod 256)).

(** A filesystem given by its directories and its regular files; a regular
    file with [None] as content cannot be decoded. *)
Definition tree (dirs : gmap string (list string))
    (files : gmap string (option image)) : filesystem :=
  Filesystem (λ p, dirs !! p)
             (λ p, bool_decide (is_Some (files !! p)))
             (λ p, files !! p ≫= id).

Definition train_2_3 : filesystem :=
  tree {[ "chest_xray/train/PNEUMONIA/" := ["p1.jpeg"; "p2.jpeg"];
          "chest_xray/train/NORMAL/" := ["n1.jpeg"; "n2.jpeg"; "n3.jpeg"] ]}
       {[ "chest_xray/train/PNEUMONIA/p1.jpeg" := Some (xray 712 1024);
          "chest_xray/train/PNEUMONIA/p2.jpeg" := Some (xray 150 150);
          "chest_xray/train/NORMAL/n1.jpeg" := Some (xray 2 3);
          "chest_xray/train/NORMAL/n2.jpeg" := Some (xray 1858 2090);
          "chest_xray/train/NORMAL/n3.jpeg" := Some (xray 1 1) ]}.

(** Only the normal class has a file. *)
Definition train_0_1 : filesystem :=
  tree {[ "chest_xray/train/PNEUMONIA/" := [];
          "chest_xray/train/NORMAL/" := ["n1.jpeg"] ]}
       {[ "chest_xray/train/NORMAL/n1.jpeg" := Some (xray 2 3) ]}.



(** A subdirectory next to the images. *)
Definition train_mixed : filesystem :=
  tree {[ "chest_xray/train/PNEUMONIA/" := ["p1.jpeg"; "old"; "p2.jpeg"];
          "chest_xray/train/NORMAL/" := ["n1.jpeg"] ]}
       {[ "chest_xray/train/PNEUMONIA/p1.jpeg" := Some (xray 4 4);
          "chest_xray/train/PNEUMONIA/p2.jpeg" := Some (xray 5 7);
          "chest_xray/train/NORMAL/n1.jpeg" := Some (xray 2 3) ]}.

(** A normal file that cannot be decoded. *)
Definition train_corrupt : filesystem :=
  tree {[ "chest_xray/train/PNEUMONIA/" := ["p1.jpeg"];
          "chest_xray/train/NORMAL/" := ["n1.jpeg"; "n2.jpeg"] ]}
       {[ "chest_xray/train/PNEUMONIA/p1.jpeg" := Some (xray 4 4);
          "chest_xray/train/NORMAL/n1.jpeg" := Some (xray 2 3);
          "chest_xray/train/NORMAL/n2.jpeg" := None ]}.

(** The value a call returns (or the exception it raises), read off the
    path table and the filesystem it runs in. *)
Definition dataset_of (cv_interp : image → nat → nat → nat → nat → Z)
    (table : gmap string (gmap string string)) (fs : filesystem)
    (subset : string) : result (ndarray * list Z) :=
  match table !! subset with
  | None => Err (KeyError subset)
  | Some paths =>
  match paths !! "pneumonia" with
  | None => Err (KeyError "pneumonia")
  | Some pos_path =>
  match paths !! "normal" with
  | None => Err (KeyError "normal")
  | Some neg_path =>
  match files_of fs pos_path with
  | None => Err (OSError pos_path)
  | Some pos_files =>
  match files_of fs neg_path with
  | None => Err (OSError neg_path)
  | Some neg_files =>
  match decode_all cv_interp fs pos_path pos_files with
  | Err e => Err e
  | Ok pos_images =>
  match decode_all cv_interp fs neg_path neg_files with
  | Err e => Err e
  | Ok neg_images =>
  match np_concatenate pos_images neg_images with
  | Err e => Err e
  | Ok images =>
      Ok (images, replicate (length pos_images) 1 ++ replicate (length neg_images) 0)
  end end end end end end end end.

(** A split of a world: the directories of its two classes and the
    regular files each holds, in listing order. *)
Definition split (w : world) (subset pos_dir neg_dir : string)
    (pos neg : list string) : Prop :=
  class_dir (w_path_dict w) subset "pneumonia" = Some pos_dir
  ∧ class_dir (w_path_dict w) subset "normal" = Some neg_dir
  ∧ files_of (w_fs w) pos_dir = Some pos
  ∧ files_of (w_fs w) neg_dir = Some neg.

(** The same filesystem with another listing for one directory, and a
    world on another filesystem. *)
Definition with_listing (fs : filesystem) (dir : string) (names : list string)
    : filesystem :=
  Filesystem (λ p, if bool_decide (p = dir) then Some names else fs_listdir fs p)
             (fs_isfile fs) (fs_imread fs).

Definition on_fs (w : world) (fs : filesystem) : world :=
  World (w_path_dict w) fs (w_stdout w) (w_reads w).

(** Two worlds in which a call on [subset] observes the same thing: for
    each class directory the same listing, the same answer of [isfile] on
    every entry, and the same decoded image for every regular file. *)
Definition same_observations (w1 w2 : world) (subset : string) : Prop :=
  ∀ cls dir, cls = "pneumonia" ∨ cls = "normal" →
    class_dir (w_path_dict w1) subset cls = Some dir →
    fs_listdir (w_fs w1) dir = fs_listdir (w_fs w2) dir
    ∧ ∀ names name, fs_listdir (w_fs w1) dir = Some names → name ∈ names →
        fs_isfile (w_fs w1) (join dir name) = fs_isfile (w_fs w2) (join dir name)
        ∧ (fs_isfile (w_fs w1) (join dir name) = true →
           fs_imread (w_fs w1) (dir +:+ name)
           = fs_imread (w_fs w2) (dir +:+ name)).

(** A step of the script that, at most, reads from disk: the path table,
    the filesystem and standard output stay as they are and the log of
    reads grows. *)
Definition only_reads (w w' : world) : Prop :=
  w_path_dict w' = w_path_dict w ∧ w_fs w' = w_fs w
  ∧ w_stdout w' = w_stdout w ∧ ∃ ops, w_reads w' = w_reads w ++ ops.

Definition reader {A} (m : M A) : Prop := ∀ w, only_reads w (m w).2.

(** ** Thresholding the CNN predictions (source line 169) *)

(** [model.predict] returns one binary32 number per test image. *)
Definition prec32 : Z := 24.
Definition emax32 : Z := 128.

Definition is_float32 (x : spec_float) : Prop := valid_binary prec32 emax32 x = true.

(** The constant 0.5, that is 2^23 * 2^-24. *)
Definition half : spec_float := S754_finite false 8388608 (-24).

(** [x > y] on floating-point numbers: false when either is NaN. *)
Definition gt (x y : spec_float) : bool := SFltb y x.

(** [.astype('int32')] of a boolean. *)
Definition astype_int32 (b : bool) : Z := if b then 1 else 0.

(** [(model.predict(X_test) > 0.5).astype('int32')] *)
Definition threshold (outputs : list spec_float) : list Z :=
  map (λ x, astype_int32 (gt x half)) outputs.

(** The number a floating-point datum stands for, when it is one. *)
Definition value (x : spec_float) : option Q :=
  match x with
  | S754_zero _ => Some 0%Q
  | S754_finite s m e =>
      Some ((if s then - inject_Z (Zpos m) else inject_Z (Zpos m)) * 2 ^ e)%Q
  | _ => None
  end.

(** [x] strictly exceeds 0.5: it is +infinity or a number above 1/2. *)
Definition exceeds_half (x : spec_float) : Prop :=
  x = S754_infinity false ∨ ∃ q, value x = Some q ∧ (1 # 2 < q)%Q.

(** ** The reads of a call *)

(** Listing a directory and testing each of its entries. *)
Definition listing_reads (dir : string) (names : list string) : list read_op :=
  Listdir dir :: map (λ name, Isfile (join dir name)) names.

Definition decoding_reads (dir : string) (files : list string) : list read_op :=
  map (λ sample, Imread (dir +:+ sample)) files.

(** The files a loop gets to: those up to and including the first one that
    fails to decode. *)
Fixpoint attempted (cv_interp : image → nat → nat → nat → nat → Z)
    (fs : filesystem) (dir : string) (files : list string) : list string :=
  match files with
  | [] => []
  | sample :: rest =>
      sample :: match decode cv_interp fs dir sample with
                | Ok _ => attempted cv_interp fs dir rest
                | Err _ => []
                end
  end.

(** ** The head of main: loading and flattening (source lines 52-60) *)

(** What can go wrong there: an exception of a call of [load_images], the
    unpacking of a shape that has not three entries (line 57 or 59), and a
    reshape to a size that is not the size of the array. *)
Inductive main_exn :=
  | Raised (e : exn)
  | UnpackError (expected got : nat)
  | ReshapeError (size rows cols : nat).

(** The pixels of an image in row-major order. *)
Definition ravel (img : image) : list Z :=
  mjoin ((λ i, img_px img i <$> seq 0 (img_cols img)) <$> seq 0 (img_rows img)).

(** The data of an array and its size, the product of its shape. *)
Definition arr_data (a : ndarray) : list Z := mjoin (ravel <$> arr_items a).

Definition arr_size (a : ndarray) : nat := foldr Nat.mul 1%nat (arr_shape a).

(** [rows] consecutive runs of [cols] values. *)
Fixpoint rows_of (rows cols : nat) (data : list Z) : list (list Z) :=
  match rows with
  | O => []
  | S rows' => take cols data :: rows_of rows' cols (drop cols data)
  end.

(** [a.reshape((rows, cols))] *)
Definition reshape (a : ndarray) (rows cols : nat) : main_exn + list (list Z) :=
  if (arr_size a =? rows * cols)%nat
  then inr (rows_of rows cols (arr_data a))
  else inl (ReshapeError (arr_size a) rows cols).

(** Lines 57-58 (and 59-60):
    [n_samples, nx, ny = X.shape; X.reshape((n_samples, nx * ny))]. *)
Definition flatten_images (X : ndarray) : main_exn + list (list Z) :=
  match arr_shape X with
  | [n_samples; nx; ny] => reshape X n_samples (nx * ny)
  | shape => inl (UnpackError 3 (length shape))
  end.

(** Lines 52-60: both splits are loaded, then flattened for the SVM. *)
Definition main_head (cv_interp : image → nat → nat → nat → nat → Z)
    : world → (main_exn + (list (list Z) * list Z * list (list Z) * list Z)) * world :=
  λ w,
  match load_images cv_interp "train" w with
  | (Err e, w1) => (inl (Raised e), w1)
  | (Ok (X_train, y_train), w1) =>
  match load_images cv_interp "test" w1 with
  | (Err e, w2) => (inl (Raised e), w2)
  | (Ok (X_test, y_test), w2) =>
  let w3 := emit "Training SVM classifier..." w2 in
  match flatten_images X_train with
  | inl e => (inl e, w3)
  | inr X_train_svm =>
  match flatten_images X_test with
  | inl e => (inl e, w3)
  | inr X_test_svm => (inr (X_train_svm, y_train, X_test_svm, y_test), w3)
  end end end end.

(** A filesystem with a train and a test split: two and one files in
    train, one and one in test. *)
Definition chest_xray : filesystem :=
  tree {[ "chest_xray/train/PNEUMONIA/" := ["p1.jpeg"; "p2.jpeg"];
          "chest_xray/train/NORMAL/" := ["n1.jpeg"];
          "chest_xray/test/PNEUMONIA/" := ["p9.jpeg"];
          "chest_xray/test/NORMAL/" := ["n9.jpeg"] ]}
       {[ "chest_xray/train/PNEUMONIA/p1.jpeg" := Some (xray 4 6);
          "chest_xray/train/PNEUMONIA/p2.jpeg" := Some (xray 150 150);
          "chest_xray/train/NORMAL/n1.jpeg" := Some (xray 2 3);
          "chest_xray/test/PNEUMONIA/p9.jpeg" := Some (xray 3 3);
          "chest_xray/test/NORMAL/n9.jpeg" := Some (xray 7 5) ]}.

(** The same with an empty train split. *)
Definition chest_xray_no_train : filesystem :=
  tree {[ "chest_xray/train/PNEUMONIA/" := [];
          "chest_xray/train/NORMAL/" := [];
          "chest_xray/test/PNEUMONIA/" := ["p9.jpeg"];
          "chest_xray/test/NORMAL/" := ["n9.jpeg"] ]}
       {[ "chest_xray/test/PNEUMONIA/p9.jpeg" := Some (xray 3 3);
          "chest_xray/test/NORMAL/n9.jpeg" := Some (xray 7 5) ]}.

(** A train split without its NORMAL directory. *)
Definition train_no_normal_dir : filesystem :=
  tree {[ "chest_xray/train/PNEUMONIA/" := ["p1.jpeg"; "notes"] ]}
       {[ "chest_xray/train/PNEUMONIA/p1.jpeg" := Some (xray 4 6) ]}.

(** A corrupt file between two good ones in the pneumonia directory. *)
Definition train_corrupt_first : filesystem :=
  tree {[ "chest_xray/train/PNEUMONIA/" := ["p1.jpeg"; "p2.jpeg"; "p3.jpeg"];
          "chest_xray/train/NORMAL/" := ["n1.jpeg"] ]}
       {[ "chest_xray/train/PNEUMONIA/p1.jpeg" := Some (xray 4 6);
          "chest_xray/train/PNEUMONIA/p2.jpeg" := None;
          "chest_xray/train/PNEUMONIA/p3.jpeg" := Some (xray 5 5);
          "chest_xray/train/NORMAL/n1.jpeg" := Some (xray 2 3) ]}.

(** Sample outputs: 0.75, 0.5, 0.25, NaN and +infinity. *)
Definition sample_outputs : list spec_float :=
  [S754_finite false 12582912 (-24); half; S754_finite false 8388608 (-25);
   S754_nan; S754_infinity false].

(** * Properties *)

(** ** Frame lemmas: what a step can change *)

Lemma only_reads_refl w : only_reads w w.
Proof. repeat split. exists []. by rewrite app_nil_r. Qed.

Lemma only_reads_trans w1 w2 w3 :
  only_reads w1 w2 → only_reads w2 w3 → only_reads w1 w3.
Proof.
  intros (Hp & Hf & Ho & ops & Hr) (Hp' & Hf' & Ho' & ops' & Hr').
  repeat split; try congruence.
  exists (ops ++ ops'). rewrite Hr', Hr. by rewrite app_assoc.
Qed.

Lemma only_reads_log op w : only_reads w (log_read op w).
Proof. repeat split. by exists [op]. Qed.

Lemma reader_ret {A} (a : A) : reader (ret a).
Proof. intros w. apply only_reads_refl. Qed.

Lemma reader_raise {A} e : reader (@raise A e).
Proof. intros w. apply only_reads_refl. Qed.

Lemma reader_lift {A} (r : result A) : reader (lift r).
Proof. intros w. apply only_reads_refl. Qed.

Lemma reader_bind {A B} (m : M A) (f : A → M B) :
  reader m → (∀ a, reader (f a)) → reader (bind m f).
Proof.
  intros Hm Hf w. unfold bind. specialize (Hm w).
  destruct (m w) as [[a|e] w']; simpl in *; [|done].
  eapply only_reads_trans; [exact Hm | apply Hf].
Qed.

Lemma reader_global_path_dict : reader global_path_dict.
Proof. intros w. apply only_reads_refl. Qed.

Lemma reader_getitem {V} (d : gmap string V) k : reader (getitem d k).
Proof. unfold getitem. destruct (d !! k); [apply reader_ret | apply reader_raise]. Qed.

Lemma reader_listdir path : reader (listdir path).
Proof. intros w. apply only_reads_log. Qed.

Lemma reader_isfile path : reader (isfile path).
Proof. intros w. apply only_reads_log. Qed.

Lemma reader_cv_imread path : reader (cv_imread path).
Proof. intros w. apply only_reads_log. Qed.

Create HintDb frame.
#[local] Hint Resolve reader_ret reader_raise reader_lift reader_global_path_dict
  reader_getitem reader_listdir reader_isfile reader_cv_imread : frame.

Ltac frame := repeat (apply reader_bind; [|intros]); eauto with frame.

Lemma reader_regular_files dir names : reader (regular_files dir names).
Proof. induction names as [|name rest IH]; simpl; frame. Qed.

Lemma reader_read_samples cv_interp subset cls files images :
  reader (read_samples cv_interp subset cls files images).
Proof. revert images. induction files as [|sample rest IH]; intros; simpl; frame. Qed.

#[local] Hint Resolve reader_regular_files reader_read_samples : frame.

(** ** What the two list traversals return *)

Lemma regular_files_fst dir names w :
  (regular_files dir names w).1 = Ok (keep_regular (w_fs w) dir names).
Proof.
  revert w. induction names as [|name rest IH]; intros w; [done|].
  simpl. unfold bind at 1. simpl.
  unfold bind. specialize (IH (log_read (Isfile (join dir name)) w)).
  destruct (regular_files dir rest _) as [r w']; simpl in *; subst r.
  by destruct (fs_isfile (w_fs w) (join dir name)).
Qed.

Lemma read_samples_fst cv_interp subset cls paths dir files images w :
  w_path_dict w !! subset = Some paths → paths !! cls = Some dir →
  (read_samples cv_interp subset cls files images w).1 =
    match decode_all cv_interp (w_fs w) dir files with
    | Ok more => Ok (images ++ more)
    | Err e => Err e
    end.
Proof.
  intros Hs Hc. revert images w Hs.
  induction files as [|sample rest IH]; intros images w Hs; simpl.
  { by rewrite app_nil_r. }
  unfold bind, global_path_dict, getitem. rewrite Hs. simpl. rewrite Hc. simpl.
  unfold decode, lift.
  destruct (cv_resize cv_interp (fs_imread (w_fs w) (dir +:+ sample)) (150, 150)%nat)
    as [image|e]; [|done].
  rewrite IH by done. simpl.
  destruct (decode_all _ _ _ rest); [|done].
  by rewrite <- app_assoc.
Qed.

(** ** The value of a call *)

Ltac run_step Hfst Hframe :=
  unfold bind at 1;
  let E := fresh "E" in
  let F := fresh "F" in
  pose proof Hfst as E; pose proof Hframe as F;
  match type of E with
  | (?mw).1 = _ =>
      let r := fresh "r" in
      let w' := fresh "w" in
      destruct mw as [r w']; simpl in E, F; subst r;
      destruct F as (? & ? & _)
  end.

Lemma load_images_fst cv_interp subset w :
  (load_images cv_interp subset w).1 =
  dataset_of cv_interp (w_path_dict w) (w_fs w) subset.
Proof.
  unfold load_images, dataset_of.
  unfold bind at 1, print.
  unfold bind at 1, global_path_dict. simpl.
  unfold bind at 1, getitem at 1.
  destruct (w_path_dict w !! subset) as [paths|] eqn:Hs; [|done]. simpl.
  unfold bind at 1, getitem at 1.
  destruct (paths !! "pneumonia") as [pos_path|] eqn:Hp; [|done]. simpl.
  unfold bind at 1. simpl.
  unfold bind at 1, getitem at 1. simpl. rewrite Hs. simpl.
  unfold bind at 1, getitem at 1.
  destruct (paths !! "normal") as [neg_path|] eqn:Hn; [|done]. simpl.
  unfold bind at 1, listdir at 1. simpl.
  unfold files_of.
  destruct (fs_listdir (w_fs w) pos_path) as [pos_names|] eqn:Hlp; [|done].
  set (w1 := log_read _ _).
  run_step (regular_files_fst pos_path pos_names w1)
           (reader_regular_files pos_path pos_names w1).
  unfold bind at 1, listdir at 1.
  assert (Hf0 : w_fs w0 = w_fs w) by (etrans; [eassumption|done]).
  rewrite Hf0.
  destruct (fs_listdir (w_fs w) neg_path) as [neg_names|] eqn:Hln; [|done].
  cbn [fmap option_fmap option_map].
  set (w3 := log_read _ _).
  run_step (regular_files_fst neg_path neg_names w3)
           (reader_regular_files neg_path neg_names w3).
  simpl in *. rewrite ?Hf0 in *.
  assert (Hf4 : w_fs w2 = w_fs w) by congruence.
  assert (Hs4 : w_path_dict w2 !! subset = Some paths).
  { rewrite <- Hs. f_equal. etrans; [eassumption|]. simpl. etrans; [eassumption|done]. }
  pose proof (read_samples_fst cv_interp subset "pneumonia" paths pos_path
    (keep_regular (w_fs w) pos_path pos_names) [] w2 Hs4 Hp) as Hpos.
  rewrite Hf4 in Hpos.
  run_step Hpos (reader_read_samples cv_interp subset "pneumonia"
    (keep_regular (w_fs w) pos_path pos_names) [] w2).
  destruct (decode_all cv_interp (w_fs w) pos_path _) as [pos_images|e]; [|done].
  assert (Hf5 : w_fs w4 = w_fs w) by congruence.
  assert (Hs5 : w_path_dict w4 !! subset = Some paths) by congruence.
  pose proof (read_samples_fst cv_interp subset "normal" paths neg_path
    (keep_regular (w_fs w) neg_path neg_names) [] w4 Hs5 Hn) as Hneg.
  rewrite Hf5 in Hneg.
  run_step Hneg (reader_read_samples cv_interp subset "normal"
    (keep_regular (w_fs w) neg_path neg_names) [] w4).
  destruct (decode_all cv_interp (w_fs w) neg_path _) as [neg_images|e]; [|done].
  unfold bind, lift. simpl.
  by destruct (np_concatenate pos_images neg_images).
Qed.

(** ** The world after a call *)

Lemma load_images_snd cv_interp subset w :
  only_reads (emit ("Loading data, subset = " +:+ subset) w)
             (load_images cv_interp subset w).2.
Proof.
  unfold load_images. unfold bind at 1, print.
  match goal with |- only_reads ?w0 (?m ?w0').2 => change w0' with w0; revert w end.
  intros w. generalize (emit ("Loading data, subset = " +:+ subset) w).
  change (reader (let* table := global_path_dict in
    let* paths := getitem table subset in
    let* pos_path := getitem paths "pneumonia" in
    let* table := global_path_dict in
    let* paths := getitem table subset in
    let* neg_path := getitem paths "normal" in
    let* names := listdir pos_path in
    let* pos_files := regular_files pos_path names in
    let* names := listdir neg_path in
    let* neg_files := regular_files neg_path names in
    let* pos_images := read_samples cv_interp subset "pneumonia" pos_files [] in
    let* neg_images := read_samples cv_interp subset "normal" neg_files [] in
    let* images := lift (np_concatenate pos_images neg_images) in
    ret (images, replicate (length pos_images) 1 ++ replicate (length neg_images) 0))).
  frame.
Qed.

(** ** Decoding and resizing *)

Lemma cv_resize_shape cv_interp src image :
  cv_resize cv_interp src (150, 150)%nat = Ok image → img_shape image = [150; 150]%nat.
Proof.
  unfold cv_resize. destruct src as [img|]; [|done].
  destruct (_ || _); [done|]. by intros [= <-].
Qed.

Lemma cv_resize_err cv_interp src dsize e :
  cv_resize cv_interp src dsize = Err e → e = cv2_error.
Proof.
  unfold cv_resize. destruct src as [img|]; [|by intros [= <-]].
  destruct (_ || _); [by intros [= <-]|done].
Qed.

Lemma decode_decodable cv_interp fs dir sample :
  decodable fs dir sample → is_ok (decode cv_interp fs dir sample) = true.
Proof.
  intros (img & Hread & Hr & Hc). unfold decode, cv_resize. rewrite Hread.
  destruct (img_rows img) as [|r]; [done|]. by destruct (img_cols img) as [|c].
Qed.

Lemma decode_unreadable cv_interp fs dir sample :
  fs_imread fs (dir +:+ sample) = None →
  decode cv_interp fs dir sample = Err cv2_error.
Proof. intros Hread. unfold decode. by rewrite Hread. Qed.

Lemma decode_all_ok cv_interp fs dir files images :
  decode_all cv_interp fs dir files = Ok images →
  length images = length files
  ∧ Forall (λ image, img_shape image = [150; 150]%nat) images
  ∧ Forall (λ sample, is_ok (decode cv_interp fs dir sample) = true) files.
Proof.
  revert images. induction files as [|sample rest IH]; intros images; simpl.
  { intros [= <-]. by repeat constructor. }
  destruct (decode cv_interp fs dir sample) as [image|e] eqn:Hd; [|done].
  destruct (decode_all cv_interp fs dir rest) as [more|e]; [|done].
  intros [= <-]. destruct (IH more eq_refl) as (Hlen & Hshape & Hok).
  repeat split; simpl.
  - by rewrite Hlen.
  - constructor; [|done]. eapply cv_resize_shape. exact Hd.
  - constructor; [|done]. by rewrite Hd.
Qed.

Lemma decode_all_err cv_interp fs dir files e :
  decode_all cv_interp fs dir files = Err e → e = cv2_error.
Proof.
  induction files as [|sample rest IH]; simpl; [done|].
  destruct (decode cv_interp fs dir sample) as [image|e'] eqn:Hd.
  - destruct (decode_all cv_interp fs dir rest) as [more|e'']; [done|].
    intros [= <-]. by apply IH.
  - intros [= <-]. eapply cv_resize_err. exact Hd.
Qed.

Lemma decode_all_decodable cv_interp fs dir files :
  Forall (decodable fs dir) files →
  ∃ images, decode_all cv_interp fs dir files = Ok images.
Proof.
  induction 1 as [|sample rest Hd _ (more & IH)]; simpl; [by eexists|].
  apply (decode_decodable cv_interp) in Hd.
  destruct (decode cv_interp fs dir sample); [|done].
  rewrite IH. by eexists.
Qed.

Lemma decode_all_unreadable cv_interp fs dir files sample :
  sample ∈ files → fs_imread fs (dir +:+ sample) = None →
  decode_all cv_interp fs dir files = Err cv2_error.
Proof.
  intros Hin Hread.
  destruct (decode_all cv_interp fs dir files) as [images|e] eqn:Hall.
  - apply decode_all_ok in Hall as (_ & _ & Hok).
    rewrite Forall_forall in Hok. specialize (Hok sample Hin).
    by rewrite (decode_unreadable _ _ _ _ Hread) in Hok.
  - f_equal. by eapply decode_all_err.
Qed.

(** ** Stacking and concatenating *)

Lemma forallb_same_shape first l shape :
  img_shape first = shape → Forall (λ image, img_shape image = shape) l →
  forallb (same_shape first) l = true.
Proof.
  intros Hf Hl. apply forallb_forall. intros x Hx%list_elem_of_In.
  rewrite Forall_forall in Hl. unfold same_shape.
  apply bool_decide_eq_true. rewrite Hf. symmetry. by apply Hl.
Qed.

Lemma np_asarray_uniform l r c :
  l ≠ [] → Forall (λ image, img_shape image = [r; c]) l →
  np_asarray l = Ok (NDArray [length l; r; c] l).
Proof.
  intros Hne Hl. destruct l as [|first rest]; [done|].
  unfold np_asarray.
  assert (Hf : img_shape first = [r; c]) by (by inversion Hl).
  rewrite (forallb_same_shape first (first :: rest) [r; c]) by done.
  by rewrite Hf.
Qed.

Lemma np_concatenate_uniform a b r c :
  a ≠ [] → b ≠ [] →
  Forall (λ image, img_shape image = [r; c]) a →
  Forall (λ image, img_shape image = [r; c]) b →
  np_concatenate a b = Ok (NDArray [(length a + length b)%nat; r; c] (a ++ b)).
Proof.
  intros Ha Hb Hsa Hsb. unfold np_concatenate.
  rewrite (np_asarray_uniform a r c), (np_asarray_uniform b r c) by done.
  simpl. by rewrite !bool_decide_eq_true_2.
Qed.

Lemma np_concatenate_empty_l b r c :
  b ≠ [] → Forall (λ image, img_shape image = [r; c]) b →
  np_concatenate [] b = Err (ValueError DimensionCountMismatch).
Proof.
  intros Hb Hsb. unfold np_concatenate.
  by rewrite (np_asarray_uniform b r c).
Qed.

Lemma np_concatenate_empty_r a r c :
  a ≠ [] → Forall (λ image, img_shape image = [r; c]) a →
  np_concatenate a [] = Err (ValueError DimensionCountMismatch).
Proof.
  intros Ha Hsa. unfold np_concatenate.
  by rewrite (np_asarray_uniform a r c).
Qed.

Lemma np_concatenate_empty : np_concatenate [] [] = Ok (NDArray [0%nat] []).
Proof. reflexivity. Qed.

(** ** The value of a call on a split *)

Lemma class_dir_lookup table subset cls dir :
  class_dir table subset cls = Some dir →
  ∃ paths, table !! subset = Some paths ∧ paths !! cls = Some dir.
Proof.
  unfold class_dir. destruct (table !! subset) as [paths|]; [|done].
  simpl. eauto.
Qed.

(** On a split, a call goes as far as the decoding of the files. *)
Lemma dataset_of_split cv_interp w subset pos_dir neg_dir pos neg :
  split w subset pos_dir neg_dir pos neg →
  dataset_of cv_interp (w_path_dict w) (w_fs w) subset =
  match decode_all cv_interp (w_fs w) pos_dir pos with
  | Err e => Err e
  | Ok pos_images =>
  match decode_all cv_interp (w_fs w) neg_dir neg with
  | Err e => Err e
  | Ok neg_images =>
  match np_concatenate pos_images neg_images with
  | Err e => Err e
  | Ok images =>
      Ok (images, replicate (length pos_images) 1 ++ replicate (length neg_images) 0)
  end end end.
Proof.
  intros (Hp & Hn & Hfp & Hfn).
  apply class_dir_lookup in Hp as (paths & Hs & Hp).
  apply class_dir_lookup in Hn as (paths' & Hs' & Hn).
  assert (paths' = paths) as -> by congruence.
  unfold dataset_of. by rewrite Hs, Hp, Hn, Hfp, Hfn.
Qed.

Lemma load_images_both cv_interp w subset pos_dir neg_dir pos neg :
  split w subset pos_dir neg_dir pos neg →
  Forall (decodable (w_fs w) pos_dir) pos →
  Forall (decodable (w_fs w) neg_dir) neg →
  pos ≠ [] → neg ≠ [] →
  ∃ pos_images neg_images,
    decode_all cv_interp (w_fs w) pos_dir pos = Ok pos_images
    ∧ decode_all cv_interp (w_fs w) neg_dir neg = Ok neg_images
    ∧ (load_images cv_interp subset w).1 =
        Ok (NDArray [(length pos + length neg)%nat; 150; 150]%nat
                    (pos_images ++ neg_images),
            replicate (length pos) 1 ++ replicate (length neg) 0).
Proof.
  intros Hsplit Hdp Hdn Hp Hn.
  rewrite load_images_fst, (dataset_of_split _ _ _ _ _ _ _ Hsplit).
  destruct (decode_all_decodable cv_interp _ _ _ Hdp) as (pos_images & Hpi).
  destruct (decode_all_decodable cv_interp _ _ _ Hdn) as (neg_images & Hni).
  exists pos_images, neg_images. rewrite Hpi, Hni.
  apply decode_all_ok in Hpi as (Hlp & Hsp & _).
  apply decode_all_ok in Hni as (Hln & Hsn & _).
  rewrite (np_concatenate_uniform pos_images neg_images 150 150); try done.
  - by rewrite Hlp, Hln.
  - intros ->. by destruct pos.
  - intros ->. by destruct neg.
Qed.

Lemma load_images_none cv_interp w subset pos_dir neg_dir :
  split w subset pos_dir neg_dir [] [] →
  (load_images cv_interp subset w).1 = Ok (NDArray [0%nat] [], []).
Proof.
  intros Hsplit.
  by rewrite load_images_fst, (dataset_of_split _ _ _ _ _ _ _ Hsplit).
Qed.


(** Hypotheses about the example filesystems are closed and decided by
    evaluation. *)
Ltac by_evaluation :=
  repeat match goal with
  | |- _ ∧ _ => split
  | |- split _ _ _ _ _ _ => unfold split
  | |- Forall _ _ => constructor
  | |- decodable _ _ _ => eexists; split; [vm_compute; reflexivity | split; discriminate]
  | |- _ ≠ _ => discriminate
  | |- _ = _ => vm_compute; reflexivity
  end.

(** ** C1: pneumonia images first, then normal images *)

(** C1, as the code has it.  On a split whose pneumonia directory holds the
    regular files [pos] and whose normal directory holds the regular files
    [neg], all decodable, and with both classes non-empty or both empty, a
    call returns [length pos + length neg] images and as many labels: the
    labels are [length pos] ones followed by [length neg] zeros, and the
    images are those of [pos], in order, followed by those of [neg]. *)
Theorem load_images_pneumonia_first cv_interp w subset pos_dir neg_dir pos neg :
  split w subset pos_dir neg_dir pos neg →
  Forall (decodable (w_fs w) pos_dir) pos →
  Forall (decodable (w_fs w) neg_dir) neg →
  (pos = [] ↔ neg = []) →
  ∃ images labels,
    (load_images cv_interp subset w).1 = Ok (images, labels)
    ∧ length (arr_items images) = (length pos + length neg)%nat
    ∧ hd 0%nat (arr_shape images) = (length pos + length neg)%nat
    ∧ length labels = (length pos + length neg)%nat
    ∧ labels = replicate (length pos) 1 ++ replicate (length neg) 0
    ∧ decode_all cv_interp (w_fs w) pos_dir pos
        = Ok (take (length pos) (arr_items images))
    ∧ decode_all cv_interp (w_fs w) neg_dir neg
        = Ok (drop (length pos) (arr_items images)).
Proof.
  intros Hsplit Hdp Hdn Hiff.
  destruct pos as [|p pos'] eqn:Epos.
  - assert (neg = []) as -> by (by apply Hiff).
    exists (NDArray [0%nat] []), [].
    by rewrite (load_images_none _ _ _ _ _ Hsplit).
  - assert (neg ≠ []) as Hn by (intros H; by apply Hiff in H).
    rewrite <- Epos in *.
    assert (pos ≠ []) as Hp by (by rewrite Epos).
    destruct (load_images_both cv_interp _ _ _ _ _ _ Hsplit Hdp Hdn Hp Hn)
      as (pos_images & neg_images & Hpi & Hni & Hrun).
    eexists _, _. split; [exact Hrun|]. simpl.
    pose proof (decode_all_ok _ _ _ _ _ Hpi) as (Hlp & _).
    pose proof (decode_all_ok _ _ _ _ _ Hni) as (Hln & _).
    rewrite !length_app, !length_replicate, Hlp, Hln.
    repeat split; [by rewrite Hpi, <- Hlp, take_app_length
                  |by rewrite Hni, <- Hlp, drop_app_length].
Qed.

Lemma load_images_pneumonia_first_witness :
  split (boot train_2_3) "train"
        "chest_xray/train/PNEUMONIA/" "chest_xray/train/NORMAL/"
        ["p1.jpeg"; "p2.jpeg"] ["n1.jpeg"; "n2.jpeg"; "n3.jpeg"]
  ∧ ∃ images labels,
      (load_images nearest "train" (boot train_2_3)).1 = Ok (images, labels)
      ∧ length (arr_items images) = 5%nat
      ∧ hd 0%nat (arr_shape images) = 5%nat
      ∧ length labels = 5%nat
      ∧ labels = [1; 1; 0; 0; 0]
      ∧ decode_all nearest train_2_3 "chest_xray/train/PNEUMONIA/"
          ["p1.jpeg"; "p2.jpeg"] = Ok (take 2 (arr_items images))
      ∧ decode_all nearest train_2_3 "chest_xray/train/NORMAL/"
          ["n1.jpeg"; "n2.jpeg"; "n3.jpeg"] = Ok (drop 2 (arr_items images)).
Proof.
  split; [by_evaluation|].
  apply (load_images_pneumonia_first nearest (boot train_2_3) "train"
           "chest_xray/train/PNEUMONIA/" "chest_xray/train/NORMAL/"
           ["p1.jpeg"; "p2.jpeg"] ["n1.jpeg"; "n2.jpeg"; "n3.jpeg"]).
  - by_evaluation.
  - by_evaluation.
  - by_evaluation.
  - split; discriminate.
Defined.

(** C1 as stated fails when exactly one class has no file: with no
    pneumonia file and one decodable normal file, the call raises instead of
    returning one image and the label list [0]. *)
Lemma load_images_one_class_empty_fails :
  split (boot train_0_1) "train"
        "chest_xray/train/PNEUMONIA/" "chest_xray/train/NORMAL/" [] ["n1.jpeg"]
  ∧ Forall (decodable train_0_1 "chest_xray/train/NORMAL/") ["n1.jpeg"]
  ∧ (load_images nearest "train" (boot train_0_1)).1
    = Err (ValueError DimensionCountMismatch)
  ∧ ¬ ∃ images labels,
        (load_images nearest "train" (boot train_0_1)).1 = Ok (images, labels).
Proof.
  assert (Hrun : (load_images nearest "train" (boot train_0_1)).1
                 = Err (ValueError DimensionCountMismatch))
    by (vm_compute; reflexivity).
  split; [by_evaluation|]. split; [by_evaluation|]. split; [exact Hrun|].
  intros (images & labels & Hok). rewrite Hrun in Hok. discriminate.
Qed.

(** ** C2: an unknown split name *)

Lemma path_dict_keys subset :
  subset ≠ "train" → subset ≠ "test" → subset ≠ "validation" →
  path_dict !! subset = None.
Proof.
  intros H1 H2 H3. unfold path_dict.
  rewrite !lookup_insert_ne by done. by apply lookup_singleton_ne.
Qed.

(** C2.  After the module is loaded, a call with a name other than
    'train', 'test' and 'validation' raises [KeyError] for that name; the
    only trace it leaves is the progress line, and no read has been done
    when it fails.  In particular it returns no dataset, empty or not. *)
Theorem load_images_unknown_split cv_interp w subset :
  w_path_dict w = path_dict →
  subset ≠ "train" → subset ≠ "test" → subset ≠ "validation" →
  load_images cv_interp subset w
  = (Err (KeyError subset), emit ("Loading data, subset = " +:+ subset) w)
  ∧ w_reads (load_images cv_interp subset w).2 = w_reads w.
Proof.
  intros Hw H1 H2 H3.
  assert (Hrun : load_images cv_interp subset w
    = (Err (KeyError subset), emit ("Loading data, subset = " +:+ subset) w)).
  { unfold load_images, bind, print, global_path_dict, getitem. simpl.
    by rewrite Hw, path_dict_keys. }
  by rewrite Hrun.
Qed.

Lemma load_images_unknown_split_witness :
  load_images nearest "val" (boot train_2_3)
  = (Err (KeyError "val"),
     emit ("Loading data, subset = " +:+ "val") (boot train_2_3))
  ∧ w_reads (load_images nearest "val" (boot train_2_3)).2
    = w_reads (boot train_2_3).
Proof.
  apply (load_images_unknown_split nearest (boot train_2_3) "val");
    [reflexivity | discriminate | discriminate | discriminate].
Defined.

(** ** C3: every image is 150 by 150 *)

(** C3.  On a split with at least one pneumonia file and at least one
    normal file, all decodable, a call returns an array whose every image
    has shape (150, 150), whatever the sizes of the decoded files. *)
Theorem load_images_shape cv_interp w subset pos_dir neg_dir pos neg :
  split w subset pos_dir neg_dir pos neg →
  Forall (decodable (w_fs w) pos_dir) pos →
  Forall (decodable (w_fs w) neg_dir) neg →
  pos ≠ [] → neg ≠ [] →
  ∃ images labels,
    (load_images cv_interp subset w).1 = Ok (images, labels)
    ∧ Forall (λ image, img_rows image = 150%nat ∧ img_cols image = 150%nat)
             (arr_items images)
    ∧ arr_shape images = [(length pos + length neg)%nat; 150; 150]%nat.
Proof.
  intros Hsplit Hdp Hdn Hp Hn.
  destruct (load_images_both cv_interp _ _ _ _ _ _ Hsplit Hdp Hdn Hp Hn)
    as (pos_images & neg_images & Hpi & Hni & Hrun).
  eexists _, _. split; [exact Hrun|]. simpl. split; [|done].
  apply decode_all_ok in Hpi as (_ & Hsp & _).
  apply decode_all_ok in Hni as (_ & Hsn & _).
  apply Forall_app. split; eapply Forall_impl; eauto;
    intros image [= -> ->]; done.
Qed.

Lemma load_images_shape_witness :
  split (boot train_2_3) "train"
        "chest_xray/train/PNEUMONIA/" "chest_xray/train/NORMAL/"
        ["p1.jpeg"; "p2.jpeg"] ["n1.jpeg"; "n2.jpeg"; "n3.jpeg"]
  ∧ fs_imread train_2_3 "chest_xray/train/PNEUMONIA/p1.jpeg" = Some (xray 712 1024)
  ∧ fs_imread train_2_3 "chest_xray/train/NORMAL/n3.jpeg" = Some (xray 1 1)
  ∧ ∃ images labels,
      (load_images nearest "train" (boot train_2_3)).1 = Ok (images, labels)
      ∧ Forall (λ image, img_rows image = 150%nat ∧ img_cols image = 150%nat)
               (arr_items images)
      ∧ arr_shape images = [5; 150; 150]%nat.
Proof.
  split; [by_evaluation|]. split; [reflexivity|]. split; [reflexivity|].
  apply (load_images_shape nearest (boot train_2_3) "train"
           "chest_xray/train/PNEUMONIA/" "chest_xray/train/NORMAL/"
           ["p1.jpeg"; "p2.jpeg"] ["n1.jpeg"; "n2.jpeg"; "n3.jpeg"]);
    by_evaluation.
Defined.

(** ** C4: two pneumonia files and three normal files *)



(** ** The value of a call depends on what it observes only *)

Lemma decode_all_agree cv_interp fs1 fs2 dir files :
  (∀ sample, sample ∈ files →
     fs_imread fs1 (dir +:+ sample) = fs_imread fs2 (dir +:+ sample)) →
  decode_all cv_interp fs1 dir files = decode_all cv_interp fs2 dir files.
Proof.
  induction files as [|sample rest IH]; intros Hagree; [done|].
  simpl. unfold decode. rewrite (Hagree sample) by set_solver.
  rewrite IH; [done|]. intros s Hs. apply Hagree. set_solver.
Qed.

Lemma keep_regular_agree fs1 fs2 dir names :
  (∀ name, name ∈ names →
     fs_isfile fs1 (join dir name) = fs_isfile fs2 (join dir name)) →
  keep_regular fs1 dir names = keep_regular fs2 dir names.
Proof.
  induction names as [|name rest IH]; intros Hagree; [done|].
  unfold keep_regular in *. simpl. rewrite (Hagree name) by set_solver.
  rewrite IH; [done|]. intros n Hn. apply Hagree. set_solver.
Qed.

Lemma elem_of_keep_regular fs dir names name :
  name ∈ keep_regular fs dir names ↔
  name ∈ names ∧ fs_isfile fs (join dir name) = true.
Proof.
  unfold keep_regular. rewrite !list_elem_of_In, filter_In. done.
Qed.

Lemma dataset_of_agree cv_interp table fs1 fs2 subset :
  (∀ cls dir, cls = "pneumonia" ∨ cls = "normal" →
     class_dir table subset cls = Some dir →
     files_of fs1 dir = files_of fs2 dir
     ∧ ∀ files sample, files_of fs1 dir = Some files → sample ∈ files →
         fs_imread fs1 (dir +:+ sample) = fs_imread fs2 (dir +:+ sample)) →
  dataset_of cv_interp table fs1 subset = dataset_of cv_interp table fs2 subset.
Proof.
  intros Hagree. unfold dataset_of.
  destruct (table !! subset) as [paths|] eqn:Hs; [|done].
  destruct (paths !! "pneumonia") as [pos_path|] eqn:Hp; [|done].
  destruct (paths !! "normal") as [neg_path|] eqn:Hn; [|done].
  destruct (Hagree "pneumonia" pos_path) as (Hfp & Hrp);
    [by left | by unfold class_dir; rewrite Hs |].
  destruct (Hagree "normal" neg_path) as (Hfn & Hrn);
    [by right | by unfold class_dir; rewrite Hs |].
  rewrite <- Hfp, <- Hfn.
  destruct (files_of fs1 pos_path) as [pos_files|]; [|done].
  destruct (files_of fs1 neg_path) as [neg_files|]; [|done].
  rewrite (decode_all_agree cv_interp fs1 fs2 pos_path pos_files) by eauto.
  by rewrite (decode_all_agree cv_interp fs1 fs2 neg_path neg_files) by eauto.
Qed.

(** ** C5: only regular files are loaded *)

Lemma keep_regular_skip fs dir before entry after :
  fs_isfile fs (join dir entry) = false →
  keep_regular fs dir (before ++ entry :: after)
  = keep_regular fs dir (before ++ after).
Proof.
  intros Hno. unfold keep_regular. rewrite !List.filter_app. simpl.
  by rewrite Hno.
Qed.

(** C5.  An entry of a directory that is not a regular file contributes
    nothing: the call returns the same images and labels (or raises the
    same exception) as on the filesystem whose listing of that directory
    lacks the entry. *)
Theorem load_images_skips_non_files cv_interp w subset cls dir before entry after :
  cls = "pneumonia" ∨ cls = "normal" →
  class_dir (w_path_dict w) subset cls = Some dir →
  fs_listdir (w_fs w) dir = Some (before ++ entry :: after) →
  fs_isfile (w_fs w) (join dir entry) = false →
  (load_images cv_interp subset w).1
  = (load_images cv_interp subset
       (on_fs w (with_listing (w_fs w) dir (before ++ after)))).1.
Proof.
  intros _ _ Hlist Hno. rewrite !load_images_fst. simpl.
  apply dataset_of_agree. intros cls' dir' _ _. split; [|done].
  unfold files_of.
  change (keep_regular (with_listing (w_fs w) dir (before ++ after)) dir')
    with (keep_regular (w_fs w) dir').
  unfold with_listing. simpl. case_bool_decide as Hd; [|done].
  subst dir'. rewrite Hlist. simpl. f_equal. by apply keep_regular_skip.
Qed.

Lemma load_images_skips_non_files_witness :
  class_dir (w_path_dict (boot train_mixed)) "train" "pneumonia"
  = Some "chest_xray/train/PNEUMONIA/"
  ∧ fs_listdir train_mixed "chest_xray/train/PNEUMONIA/"
    = Some (["p1.jpeg"] ++ "old" :: ["p2.jpeg"])
  ∧ fs_isfile train_mixed (join "chest_xray/train/PNEUMONIA/" "old") = false
  ∧ (load_images nearest "train" (boot train_mixed)).1
    = (load_images nearest "train"
         (on_fs (boot train_mixed)
            (with_listing train_mixed "chest_xray/train/PNEUMONIA/"
               (["p1.jpeg"] ++ ["p2.jpeg"])))).1.
Proof.
  split; [by_evaluation|]. split; [by_evaluation|]. split; [by_evaluation|].
  apply (load_images_skips_non_files nearest (boot train_mixed) "train"
           "pneumonia" "chest_xray/train/PNEUMONIA/" ["p1.jpeg"] "old" ["p2.jpeg"]).
  - by left.
  - by_evaluation.
  - by_evaluation.
  - by_evaluation.
Defined.

(** ** C6: a file that cannot be decoded *)

(** C6.  On a split one of whose regular files cannot be decoded
    ([cv.imread] yields no image), a call raises the OpenCV error of
    [cv.resize]; it returns no dataset. *)
Theorem load_images_undecodable cv_interp w subset pos_dir neg_dir pos neg sample :
  split w subset pos_dir neg_dir pos neg →
  (sample ∈ pos ∧ fs_imread (w_fs w) (pos_dir +:+ sample) = None)
  ∨ (sample ∈ neg ∧ fs_imread (w_fs w) (neg_dir +:+ sample) = None) →
  (load_images cv_interp subset w).1 = Err cv2_error.
Proof.
  intros Hsplit Hbad.
  rewrite load_images_fst, (dataset_of_split _ _ _ _ _ _ _ Hsplit).
  destruct (decode_all cv_interp (w_fs w) pos_dir pos) as [pos_images|e] eqn:Hpi.
  - destruct Hbad as [[Hin Hread] | [Hin Hread]].
    + by rewrite (decode_all_unreadable _ _ _ _ _ Hin Hread) in Hpi.
    + by rewrite (decode_all_unreadable _ _ _ _ _ Hin Hread).
  - f_equal. by eapply decode_all_err.
Qed.

Lemma load_images_undecodable_witness :
  split (boot train_corrupt) "train"
        "chest_xray/train/PNEUMONIA/" "chest_xray/train/NORMAL/"
        ["p1.jpeg"] ["n1.jpeg"; "n2.jpeg"]
  ∧ fs_imread train_corrupt ("chest_xray/train/NORMAL/" +:+ "n2.jpeg") = None
  ∧ (load_images nearest "train" (boot train_corrupt)).1 = Err cv2_error.
Proof.
  split; [by_evaluation|]. split; [by_evaluation|].
  apply (load_images_undecodable nearest (boot train_corrupt) "train"
           "chest_xray/train/PNEUMONIA/" "chest_xray/train/NORMAL/"
           ["p1.jpeg"] ["n1.jpeg"; "n2.jpeg"] "n2.jpeg").
  - by_evaluation.
  - right. split; [|by_evaluation].
    apply list_elem_of_further, list_elem_of_here.
Defined.

(** ** C8: the effects of a call *)

(** C8, as the code has it.  Besides reading from disk, a call prints one
    progress line.  It leaves the path table and the filesystem as they
    are, appends that line to standard output and otherwise only reads;
    and nothing it leaves behind is used by a later call, whose result is
    the one a call in a fresh world with the same path table and the
    filesystem of the moment gives. *)
Theorem load_images_effects cv_interp subset w :
  w_path_dict (load_images cv_interp subset w).2 = w_path_dict w
  ∧ w_fs (load_images cv_interp subset w).2 = w_fs w
  ∧ w_stdout (load_images cv_interp subset w).2
    = w_stdout w ++ ["Loading data, subset = " +:+ subset]
  ∧ (∃ ops, w_reads (load_images cv_interp subset w).2 = w_reads w ++ ops)
  ∧ ∀ later_fs,
      (load_images cv_interp subset
         (on_fs (load_images cv_interp subset w).2 later_fs)).1
      = (load_images cv_interp subset (World (w_path_dict w) later_fs [] [])).1.
Proof.
  destruct (load_images_snd cv_interp subset w) as (Hp & Hf & Ho & Hr).
  simpl in *. repeat split; try done.
  intros later_fs. rewrite !load_images_fst. simpl. by rewrite Hp.
Qed.

(** C8 as stated fails: a call on the train split changes standard
    output, which is neither the disk nor left unchanged. *)
Lemma load_images_prints :
  w_stdout (boot train_2_3) = []
  ∧ w_stdout (load_images nearest "train" (boot train_2_3)).2
    = ["Loading data, subset = train"]
  ∧ (load_images nearest "train" (boot train_2_3)).2 ≠ boot train_2_3.
Proof.
  assert (Hout : w_stdout (load_images nearest "train" (boot train_2_3)).2
                 = ["Loading data, subset = train"]) by (vm_compute; reflexivity).
  split; [done|]. split; [exact Hout|].
  intros Heq. rewrite Heq in Hout. discriminate.
Qed.

(** ** C9: one class without files *)




(** ** C10: determinism *)

(** C10.  Two calls on the same split, in worlds with the same path table
    in which the class directories have the same listings, the entries
    the same file types and the regular files the same decoded images,
    return the same array and the same labels, or raise the same
    exception. *)
Theorem load_images_deterministic cv_interp w1 w2 subset :
  w_path_dict w1 = w_path_dict w2 →
  same_observations w1 w2 subset →
  (load_images cv_interp subset w1).1 = (load_images cv_interp subset w2).1.
Proof.
  intros Htable Hobs. rewrite !load_images_fst, <- Htable.
  apply dataset_of_agree. intros cls dir Hcls Hdir.
  destruct (Hobs cls dir Hcls Hdir) as (Hlist & Hentries).
  unfold files_of. rewrite <- Hlist.
  destruct (fs_listdir (w_fs w1) dir) as [names|] eqn:Hnames; [|done].
  simpl. split.
  - f_equal. apply keep_regular_agree. intros name Hin.
    by apply (Hentries names name).
  - intros files sample [= <-] [Hin Hfile]%elem_of_keep_regular.
    by apply (Hentries names sample).
Qed.

Lemma load_images_deterministic_witness :
  same_observations (boot train_2_3)
    (World path_dict (with_listing train_2_3 "chest_xray/test/NORMAL/" ["t.jpeg"])
           ["Loading data, subset = test"] [Listdir "chest_xray/test/PNEUMONIA/"])
    "train"
  ∧ (load_images nearest "train" (boot train_2_3)).1
    = (load_images nearest "train"
         (World path_dict
            (with_listing train_2_3 "chest_xray/test/NORMAL/" ["t.jpeg"])
            ["Loading data, subset = test"]
            [Listdir "chest_xray/test/PNEUMONIA/"])).1.
Proof.
  assert (Hobs : same_observations (boot train_2_3)
    (World path_dict (with_listing train_2_3 "chest_xray/test/NORMAL/" ["t.jpeg"])
           ["Loading data, subset = test"] [Listdir "chest_xray/test/PNEUMONIA/"])
    "train").
  { intros cls dir [-> | ->] Hdir; vm_compute in Hdir;
      injection Hdir as <-; (split; [vm_compute; reflexivity|]);
      intros names name _ _; (split; [reflexivity | intros _; reflexivity]). }
  split; [exact Hobs|].
  apply (load_images_deterministic nearest (boot train_2_3) _ "train");
    [reflexivity | exact Hobs].
Defined.

(** ** C7: thresholding the CNN outputs *)

Lemma digits2_pos_bounds m :
  2 ^ (Zpos (digits2_pos m) - 1) ≤ Zpos m < 2 ^ Zpos (digits2_pos m).
Proof.
  induction m as [m IH|m IH|]; simpl digits2_pos.
  - rewrite Pos2Z.inj_succ, Z.pow_succ_r by lia.
    replace (Z.succ (Zpos (digits2_pos m)) - 1) with (Z.succ (Zpos (digits2_pos m) - 1)) by lia.
    rewrite Z.pow_succ_r by lia. lia.
  - rewrite Pos2Z.inj_succ, Z.pow_succ_r by lia.
    replace (Z.succ (Zpos (digits2_pos m)) - 1) with (Z.succ (Zpos (digits2_pos m) - 1)) by lia.
    rewrite Z.pow_succ_r by lia. lia.
  - simpl. lia.
Qed.

Lemma above_half_nonneg m e :
  0 ≤ e → (1 # 2 < inject_Z (Zpos m) * 2 ^ e)%Q.
Proof.
  intros He. change 2%Q with (inject_Z 2).
  rewrite <- Zpower_Qpower by lia.
  rewrite <- inject_Z_mult.
  assert (H : 0 < 2 ^ e) by (apply Z.pow_pos_nonneg; lia).
  unfold Qlt, inject_Z. cbn [Qnum Qden].
  generalize dependent (2 ^ e). intros K HK. nia.
Qed.

Lemma above_half_neg m p :
  (1 # 2 < inject_Z (Zpos m) * 2 ^ (Zneg p))%Q ↔ 2 ^ Zpos p < 2 * Zpos m.
Proof.
  change (2 ^ Z.neg p)%Q with (/ (inject_Z 2) ^ (Zpos p))%Q.
  rewrite <- Zpower_Qpower by lia.
  assert (H : 0 < 2 ^ Z.pos p) by (apply Z.pow_pos_nonneg; lia).
  destruct (2 ^ Z.pos p) as [|K|K]; try lia.
  unfold Qlt. simpl. lia.
Qed.

Lemma below_half_negative m e :
  ¬ (1 # 2 < - inject_Z (Zpos m) * 2 ^ e)%Q.
Proof.
  assert (Hp : (0 < 2 ^ e)%Q) by (by apply Qpower_0_lt).
  assert (Hm : (0 < inject_Z (Zpos m))%Q) by (by unfold Qlt).
  generalize dependent (2 ^ e)%Q. generalize dependent (inject_Z (Zpos m)).
  intros a Ha P HP. nra.
Qed.

(** The comparison of a positive binary32 number with 0.5, by cases on
    its exponent. *)
Lemma gt_half_finite m e :
  bounded prec32 emax32 m e = true →
  gt (S754_finite false m e) half = true
  ↔ (1 # 2 < inject_Z (Zpos m) * 2 ^ e)%Q.
Proof.
  unfold bounded, canonical_mantissa, fexp, emin, prec32, emax32.
  intros [Hcanon _]%andb_true_iff. apply Z.eqb_eq in Hcanon.
  pose proof (digits2_pos_bounds m) as [Hlo Hhi].
  set (d := Zpos (digits2_pos m)) in *.
  unfold gt, SFltb, SFcompare, half.
  destruct (Z.compare_spec (-24) e) as [<- | Hlt | Hgt].
  - assert (d ≤ 24) by lia.
    rewrite above_half_neg. change (2 ^ 24) with 16777216.
    rewrite Pos.compare_cont_spec. simpl.
    destruct (Pos.compare_spec 8388608 m) as [<- | H' | H']; split; try done; lia.
  - assert (d = 24) as Hd by lia. rewrite Hd in Hlo.
    change (2 ^ (24 - 1)) with 8388608 in Hlo.
    split; [intros _|done].
    destruct e as [|e|e]; [by apply above_half_nonneg | by apply above_half_nonneg |].
    apply above_half_neg.
    assert (2 ^ Zpos e ≤ 2 ^ 23) by (apply Z.pow_le_mono_r; lia).
    change (2 ^ 23) with 8388608 in *. lia.
  - assert (d ≤ 24) by lia.
    split; [done|]. destruct e as [|e|e]; try lia.
    rewrite above_half_neg. intros Habove.
    assert (2 ^ 25 ≤ 2 ^ Zpos e) by (apply Z.pow_le_mono_r; lia).
    assert (2 ^ d ≤ 2 ^ 24) by (apply Z.pow_le_mono_r; lia).
    change (2 ^ 25) with 33554432 in *. change (2 ^ 24) with 16777216 in *. lia.
Qed.

Lemma gt_half_spec x :
  is_float32 x → gt x half = true ↔ exceeds_half x.
Proof.
  unfold is_float32, exceeds_half. intros Hvalid.
  destruct x as [s|s| |s m e]; simpl in Hvalid.
  - split; [done|]. intros [? | (q & [= <-] & Hq)]; done.
  - destruct s; split; try done; try (by left).
    intros [? | (q & ? & _)]; done.
  - split; [done|]. intros [? | (q & ? & _)]; done.
  - destruct s.
    + split; [done|]. intros [? | (q & [= <-] & Hq)]; [done|].
      by apply below_half_negative in Hq.
    + rewrite (gt_half_finite m e Hvalid). split.
      * intros Hq. right. eexists. split; [reflexivity | exact Hq].
      * intros [? | (q & [= <-] & Hq)]; done.
Qed.

Lemma threshold_lookup outputs i :
  threshold outputs !! i = (λ x, astype_int32 (gt x half)) <$> outputs !! i.
Proof. unfold threshold. apply list_lookup_fmap. Qed.

(** C7.  For every test image, the predicted label is 1 exactly when the
    output of the model for that image strictly exceeds 0.5 and 0
    otherwise; an output equal to 0.5 gives 0; every prediction is 0 or
    1. *)
Theorem threshold_at_half outputs i x :
  Forall is_float32 outputs → outputs !! i = Some x →
  (threshold outputs !! i = Some 1 ↔ exceeds_half x)
  ∧ (threshold outputs !! i = Some 0 ↔ ¬ exceeds_half x)
  ∧ (x = half → threshold outputs !! i = Some 0)
  ∧ length (threshold outputs) = length outputs
  ∧ Forall (λ label, label = 0 ∨ label = 1) (threshold outputs).
Proof.
  intros Hvalid Hx.
  assert (Hf : is_float32 x).
  { rewrite Forall_forall in Hvalid. apply Hvalid. by eapply list_elem_of_lookup_2. }
  pose proof (gt_half_spec x Hf) as Hspec.
  rewrite threshold_lookup, Hx. simpl.
  split; [|split; [|split; [|split]]].
  - destruct (gt x half); simpl; split; try done.
    + by intros _; apply Hspec.
    + intros H%Hspec. done.
  - destruct (gt x half); simpl; split; try done.
    + intros Hno. destruct Hno. by apply Hspec.
    + intros _ H%Hspec. done.
  - by intros ->.
  - unfold threshold. by rewrite length_map.
  - unfold threshold. apply Forall_forall. intros label Hin.
    apply list_elem_of_fmap in Hin as (y & -> & _).
    destruct (gt y half); simpl; auto.
Qed.

Lemma threshold_at_half_witness :
  Forall is_float32 sample_outputs
  ∧ sample_outputs !! 1%nat = Some half
  ∧ (threshold sample_outputs !! 1%nat = Some 1 ↔ exceeds_half half)
  ∧ (threshold sample_outputs !! 1%nat = Some 0 ↔ ¬ exceeds_half half)
  ∧ (half = half → threshold sample_outputs !! 1%nat = Some 0)
  ∧ length (threshold sample_outputs) = length sample_outputs
  ∧ Forall (λ label, label = 0 ∨ label = 1) (threshold sample_outputs).
Proof.
  assert (Hvalid : Forall is_float32 sample_outputs)
    by (repeat constructor).
  split; [exact Hvalid|]. split; [reflexivity|].
  apply (threshold_at_half sample_outputs 1%nat half Hvalid). reflexivity.
Defined.

Example threshold_sample : threshold sample_outputs = [1; 0; 0; 0; 1].
Proof. reflexivity. Qed.

(** * Further properties of the loader *)

(** ** The exact run of the two traversals *)

Lemma regular_files_run dir names w :
  regular_files dir names w
  = (Ok (keep_regular (w_fs w) dir names),
     World (w_path_dict w) (w_fs w) (w_stdout w)
           (w_reads w ++ map (λ name, Isfile (join dir name)) names)).
Proof.
  revert w. induction names as [|name rest IH]; intros [table fs out reads].
  { simpl. unfold ret. by rewrite app_nil_r. }
  simpl. unfold bind at 1, isfile. simpl.
  unfold bind at 1. rewrite IH. simpl. unfold keep_regular, ret. simpl.
  rewrite <- app_assoc. simpl.
  by destruct (fs_isfile fs (join dir name)).
Qed.

Lemma read_samples_run cv_interp subset cls paths dir files images w :
  w_path_dict w !! subset = Some paths → paths !! cls = Some dir →
  read_samples cv_interp subset cls files images w
  = (match decode_all cv_interp (w_fs w) dir files with
     | Ok more => Ok (images ++ more)
     | Err e => Err e
     end,
     World (w_path_dict w) (w_fs w) (w_stdout w)
           (w_reads w ++ decoding_reads dir (attempted cv_interp (w_fs w) dir files))).
Proof.
  intros Hs Hc. revert images w Hs.
  induction files as [|sample rest IH]; intros images [table fs out reads] Hs.
  { simpl. unfold ret. by rewrite !app_nil_r. }
  simpl in *. unfold bind, global_path_dict, getitem. simpl. rewrite Hs. simpl.
  rewrite Hc. simpl. unfold lift, decode.
  destruct (cv_resize cv_interp (fs_imread fs (dir +:+ sample)) (150, 150)%nat)
    as [image|e]; [|done].
  rewrite IH by done. simpl. rewrite <- !app_assoc. simpl.
  destruct (decode_all cv_interp fs dir rest); [|done].
  by rewrite <- app_assoc.
Qed.

Lemma attempted_all cv_interp fs dir files images :
  decode_all cv_interp fs dir files = Ok images →
  attempted cv_interp fs dir files = files.
Proof.
  revert images. induction files as [|sample rest IH]; intros images; [done|].
  simpl. destruct (decode cv_interp fs dir sample); [|done].
  destruct (decode_all cv_interp fs dir rest) as [more|] eqn:Hrest; [|done].
  intros _. f_equal. by eapply IH.
Qed.

Lemma attempted_until cv_interp fs dir before bad after :
  Forall (decodable fs dir) before →
  is_ok (decode cv_interp fs dir bad) = false →
  attempted cv_interp fs dir (before ++ bad :: after) = before ++ [bad]
  ∧ decode_all cv_interp fs dir (before ++ bad :: after) = Err cv2_error.
Proof.
  intros Hgood Hbad. induction Hgood as [|sample rest Hd _ [IHa IHd]]; simpl.
  - destruct (decode cv_interp fs dir bad) as [|e] eqn:Hdec; [done|].
    split; [done|]. f_equal. eapply cv_resize_err. exact Hdec.
  - apply (decode_decodable cv_interp) in Hd.
    destruct (decode cv_interp fs dir sample); [|done].
    by rewrite IHa, IHd.
Qed.

Ltac right_nested := repeat (cbn [app]; rewrite <- app_assoc); cbn [app].

(** The world after a call on a split whose two directories can be
    listed. *)
Lemma load_images_run cv_interp subset w paths pos_dir neg_dir pos_names neg_names :
  w_path_dict w !! subset = Some paths →
  paths !! "pneumonia" = Some pos_dir → paths !! "normal" = Some neg_dir →
  fs_listdir (w_fs w) pos_dir = Some pos_names →
  fs_listdir (w_fs w) neg_dir = Some neg_names →
  (load_images cv_interp subset w).2
  = World (w_path_dict w) (w_fs w)
      (w_stdout w ++ ["Loading data, subset = " +:+ subset])
      (w_reads w ++ listing_reads pos_dir pos_names
         ++ listing_reads neg_dir neg_names
         ++ decoding_reads pos_dir
              (attempted cv_interp (w_fs w) pos_dir
                 (keep_regular (w_fs w) pos_dir pos_names))
         ++ match decode_all cv_interp (w_fs w) pos_dir
                  (keep_regular (w_fs w) pos_dir pos_names) with
            | Ok _ => decoding_reads neg_dir
                        (attempted cv_interp (w_fs w) neg_dir
                           (keep_regular (w_fs w) neg_dir neg_names))
            | Err _ => []
            end).
Proof.
  destruct w as [table fs out reads]. simpl. intros Hs Hp Hn Hlp Hln.
  unfold load_images.
  unfold bind at 1, print. unfold bind at 1, global_path_dict. simpl.
  unfold bind at 1, getitem at 1. rewrite Hs. simpl.
  unfold bind at 1, getitem at 1. rewrite Hp. simpl.
  unfold bind at 1. simpl.
  unfold bind at 1, getitem at 1. rewrite Hs. simpl.
  unfold bind at 1, getitem at 1. rewrite Hn. simpl.
  unfold bind at 1, listdir at 1. simpl. rewrite Hlp.
  unfold bind at 1. rewrite regular_files_run. simpl.
  unfold bind at 1, listdir at 1. simpl. rewrite Hln.
  unfold bind at 1. rewrite regular_files_run. simpl.
  unfold bind at 1.
  rewrite (read_samples_run cv_interp subset "pneumonia" paths pos_dir) by done.
  simpl. unfold listing_reads.
  destruct (decode_all cv_interp fs pos_dir (keep_regular fs pos_dir pos_names))
    as [pos_images|e].
  2: { simpl. rewrite app_nil_r. f_equal. by right_nested. }
  unfold bind at 1.
  rewrite (read_samples_run cv_interp subset "normal" paths neg_dir) by done.
  simpl.
  destruct (decode_all cv_interp fs neg_dir (keep_regular fs neg_dir neg_names))
    as [neg_images|e].
  2: { simpl. f_equal. by right_nested. }
  unfold bind, lift. simpl.
  destruct (np_concatenate pos_images neg_images); simpl; f_equal; by right_nested.
Qed.

(** ** What a returned dataset looks like *)

Lemma decode_ok_decodable cv_interp fs dir sample :
  is_ok (decode cv_interp fs dir sample) = true → decodable fs dir sample.
Proof.
  unfold decode, cv_resize, decodable.
  destruct (fs_imread fs (dir +:+ sample)) as [img|]; [|done].
  destruct (img_rows img) as [|r] eqn:Hr; [done|].
  destruct (img_cols img) as [|c] eqn:Hc; [done|].
  intros _. exists img. by rewrite Hr, Hc.
Qed.

(** The three outcomes of stacking two lists of 150 by 150 images. *)
Lemma np_concatenate_cases a b :
  Forall (λ image, img_shape image = [150; 150]%nat) a →
  Forall (λ image, img_shape image = [150; 150]%nat) b →
  (a = [] ∧ b = [] ∧ np_concatenate a b = Ok (NDArray [0%nat] []))
  ∨ (a ≠ [] ∧ b ≠ []
     ∧ np_concatenate a b
       = Ok (NDArray [(length a + length b)%nat; 150; 150]%nat (a ++ b)))
  ∨ (((a = [] ∧ b ≠ []) ∨ (a ≠ [] ∧ b = []))
     ∧ np_concatenate a b = Err (ValueError DimensionCountMismatch)).
Proof.
  intros Ha Hb. destruct a as [|x a'] eqn:Ea, b as [|y b'] eqn:Eb.
  - by left.
  - right. right. split; [by left|].
    by apply (np_concatenate_empty_l _ 150 150).
  - right. right. split; [by right|].
    by apply (np_concatenate_empty_r _ 150 150).
  - right. left. split; [done|]. split; [done|].
    by apply np_concatenate_uniform.
Qed.

(** The outcome of a call on a split, by cases on the decoding of its
    files and on which classes are empty. *)
Lemma load_images_cases cv_interp w subset pos_dir neg_dir pos neg :
  split w subset pos_dir neg_dir pos neg →
  ((∃ pos_images neg_images,
      decode_all cv_interp (w_fs w) pos_dir pos = Ok pos_images
      ∧ decode_all cv_interp (w_fs w) neg_dir neg = Ok neg_images
      ∧ length pos_images = length pos ∧ length neg_images = length neg
      ∧ Forall (λ image, img_shape image = [150; 150]%nat) (pos_images ++ neg_images)
      ∧ ((pos = [] ∧ neg = []
          ∧ (load_images cv_interp subset w).1 = Ok (NDArray [0%nat] [], []))
         ∨ (pos ≠ [] ∧ neg ≠ []
            ∧ (load_images cv_interp subset w).1
              = Ok (NDArray [(length pos + length neg)%nat; 150; 150]%nat
                            (pos_images ++ neg_images),
                    replicate (length pos) 1 ++ replicate (length neg) 0))
         ∨ (((pos = [] ∧ neg ≠ []) ∨ (pos ≠ [] ∧ neg = []))
            ∧ (load_images cv_interp subset w).1
              = Err (ValueError DimensionCountMismatch))))
   ∨ ((load_images cv_interp subset w).1 = Err cv2_error
      ∧ ¬ (Forall (decodable (w_fs w) pos_dir) pos
           ∧ Forall (decodable (w_fs w) neg_dir) neg))).
Proof.
  intros Hsplit.
  rewrite load_images_fst, (dataset_of_split _ _ _ _ _ _ _ Hsplit).
  assert (Hbad : ∀ dir files e,
    decode_all cv_interp (w_fs w) dir files = Err e →
    ¬ Forall (decodable (w_fs w) dir) files).
  { intros dir files e He Hall.
    destruct (decode_all_decodable cv_interp _ _ _ Hall) as (images & Hok).
    by rewrite Hok in He. }
  destruct (decode_all cv_interp (w_fs w) pos_dir pos) as [pos_images|e] eqn:Hpi.
  2: { right. split; [f_equal; by eapply decode_all_err|].
       intros [Hall _]. by eapply Hbad. }
  destruct (decode_all cv_interp (w_fs w) neg_dir neg) as [neg_images|e] eqn:Hni.
  2: { right. split; [f_equal; by eapply decode_all_err|].
       intros [_ Hall]. by eapply Hbad. }
  left. exists pos_images, neg_images.
  apply decode_all_ok in Hpi as (Hlp & Hsp & _).
  apply decode_all_ok in Hni as (Hln & Hsn & _).
  repeat (split; [done|]). split; [by apply Forall_app|].
  assert (Hep : pos_images = [] ↔ pos = []).
  { rewrite <- !length_zero_iff_nil. by rewrite Hlp. }
  assert (Hen : neg_images = [] ↔ neg = []).
  { rewrite <- !length_zero_iff_nil. by rewrite Hln. }
  destruct (np_concatenate_cases pos_images neg_images Hsp Hsn)
    as [(Ha & Hb & ->) | [(Ha & Hb & ->) | (Hone & ->)]].
  - left. subst. split; [by apply Hep|]. split; [by apply Hen|]. done.
  - right. left. rewrite Hlp, Hln. rewrite Hep in Ha. rewrite Hen in Hb. done.
  - right. right. rewrite Hep, Hen in Hone. done.
Qed.

Lemma split_of_lookups w subset paths pos_dir neg_dir pos neg :
  w_path_dict w !! subset = Some paths →
  paths !! "pneumonia" = Some pos_dir → paths !! "normal" = Some neg_dir →
  files_of (w_fs w) pos_dir = Some pos → files_of (w_fs w) neg_dir = Some neg →
  split w subset pos_dir neg_dir pos neg.
Proof.
  intros Hs Hp Hn Hfp Hfn. unfold split, class_dir. by rewrite Hs.
Qed.

(** A call that returns has found a split. *)
Lemma load_images_ok_split cv_interp w subset r :
  (load_images cv_interp subset w).1 = Ok r →
  ∃ pos_dir neg_dir pos neg, split w subset pos_dir neg_dir pos neg.
Proof.
  rewrite load_images_fst. unfold dataset_of.
  destruct (w_path_dict w !! subset) as [paths|] eqn:Hs; [|done].
  destruct (paths !! "pneumonia") as [pos_dir|] eqn:Hp; [|done].
  destruct (paths !! "normal") as [neg_dir|] eqn:Hn; [|done].
  destruct (files_of (w_fs w) pos_dir) as [pos|] eqn:Hfp; [|done].
  destruct (files_of (w_fs w) neg_dir) as [neg|] eqn:Hfn; [|done].
  intros _. exists pos_dir, neg_dir, pos, neg. by eapply split_of_lookups.
Qed.

(** Whenever a call returns, images and labels are aligned: there are as
    many labels as images, as many as the split has regular files, the
    labels are one 1 per pneumonia file followed by one 0 per normal file,
    and every image is 150 by 150. *)
Theorem load_images_aligned cv_interp w subset images labels :
  (load_images cv_interp subset w).1 = Ok (images, labels) →
  ∃ pos_dir neg_dir pos neg,
    split w subset pos_dir neg_dir pos neg
    ∧ labels = replicate (length pos) 1 ++ replicate (length neg) 0
    ∧ length (arr_items images) = length labels
    ∧ hd 0%nat (arr_shape images) = length labels
    ∧ Forall (λ image, img_rows image = 150%nat ∧ img_cols image = 150%nat)
             (arr_items images).
Proof.
  intros Hrun.
  destruct (load_images_ok_split _ _ _ _ Hrun) as (pos_dir & neg_dir & pos & neg & Hsplit).
  exists pos_dir, neg_dir, pos, neg. split; [done|].
  destruct (load_images_cases cv_interp _ _ _ _ _ _ Hsplit)
    as [(pi & ni & _ & _ & Hlp & Hln & Hshape & Hcases) | [Herr _]].
  2: { by rewrite Herr in Hrun. }
  assert (Hs : Forall (λ image, img_rows image = 150%nat ∧ img_cols image = 150%nat)
                      (pi ++ ni)).
  { eapply Forall_impl; [exact Hshape|]. by intros image [= -> ->]. }
  destruct Hcases as [(-> & -> & Hok) | [(_ & _ & Hok) | (_ & Herr)]];
    rewrite Hrun in *; simplify_eq/=.
  - done.
  - by rewrite !length_app, !length_replicate, Hlp, Hln.
Qed.

Lemma load_images_aligned_witness :
  (load_images nearest "train" (boot train_mixed)).1
  = Ok (NDArray [3; 150; 150]%nat
          [Image 150 150 (nearest (xray 4 4) 150 150);
           Image 150 150 (nearest (xray 5 7) 150 150);
           Image 150 150 (nearest (xray 2 3) 150 150)],
        [1; 1; 0])
  ∧ ∃ pos_dir neg_dir pos neg,
      split (boot train_mixed) "train" pos_dir neg_dir pos neg
      ∧ [1; 1; 0] = replicate (length pos) 1 ++ replicate (length neg) 0.
Proof.
  assert (Hrun : (load_images nearest "train" (boot train_mixed)).1
    = Ok (NDArray [3; 150; 150]%nat
            [Image 150 150 (nearest (xray 4 4) 150 150);
             Image 150 150 (nearest (xray 5 7) 150 150);
             Image 150 150 (nearest (xray 2 3) 150 150)],
          [1; 1; 0])) by (vm_compute; reflexivity).
  split; [exact Hrun|].
  destruct (load_images_aligned nearest (boot train_mixed) "train" _ _ Hrun)
    as (pos_dir & neg_dir & pos & neg & Hsplit & Hlabels & _).
  by exists pos_dir, neg_dir, pos, neg.
Defined.

(** ** When a call returns, and what it raises *)

(** On a split whose directories can be listed, a call returns a dataset
    exactly when every regular file is decodable and the two classes are
    both empty or both non-empty. *)
Theorem load_images_returns_iff cv_interp w subset pos_dir neg_dir pos neg :
  split w subset pos_dir neg_dir pos neg →
  is_ok (load_images cv_interp subset w).1 = true
  ↔ Forall (decodable (w_fs w) pos_dir) pos
    ∧ Forall (decodable (w_fs w) neg_dir) neg
    ∧ (pos = [] ↔ neg = []).
Proof.
  intros Hsplit.
  destruct (load_images_cases cv_interp _ _ _ _ _ _ Hsplit)
    as [(pi & ni & Hpi & Hni & _ & _ & _ & Hcases) | [Herr Hno]].
  2: { rewrite Herr. split; [done|]. intros (Hp & Hn & _). by destruct Hno. }
  assert (Hdp : Forall (decodable (w_fs w) pos_dir) pos).
  { apply decode_all_ok in Hpi as (_ & _ & Hok).
    eapply Forall_impl; [exact Hok|]. intros s. apply decode_ok_decodable. }
  assert (Hdn : Forall (decodable (w_fs w) neg_dir) neg).
  { apply decode_all_ok in Hni as (_ & _ & Hok).
    eapply Forall_impl; [exact Hok|]. intros s. apply decode_ok_decodable. }
  destruct Hcases as [(-> & -> & ->) | [(Hp & Hn & ->) | (Hone & ->)]]; simpl.
  - done.
  - split; [|done]. intros _. split; [done|]. split; [done|].
    split; intros Hnil; [by destruct Hp | by destruct Hn].
  - split; [done|]. intros (_ & _ & Hiff).
    destruct Hone as [[Hp Hn] | [Hp Hn]];
      [destruct Hn; by apply Hiff | destruct Hp; by apply Hiff].
Qed.

Lemma load_images_returns_iff_witness :
  split (boot train_0_1) "train"
        "chest_xray/train/PNEUMONIA/" "chest_xray/train/NORMAL/" [] ["n1.jpeg"]
  ∧ (is_ok (load_images nearest "train" (boot train_0_1)).1 = true
     ↔ Forall (decodable train_0_1 "chest_xray/train/PNEUMONIA/") []
       ∧ Forall (decodable train_0_1 "chest_xray/train/NORMAL/") ["n1.jpeg"]
       ∧ (@nil string = [] ↔ ["n1.jpeg"] = [])).
Proof.
  split; [by_evaluation|].
  apply (load_images_returns_iff nearest (boot train_0_1) "train"
           "chest_xray/train/PNEUMONIA/" "chest_xray/train/NORMAL/" [] ["n1.jpeg"]).
  by_evaluation.
Defined.

Lemma path_dict_lookup subset paths :
  path_dict !! subset = Some paths →
  (subset = "train" ∨ subset = "test" ∨ subset = "validation")
  ∧ ∃ pos_dir neg_dir,
      paths !! "pneumonia" = Some pos_dir ∧ paths !! "normal" = Some neg_dir
      ∧ endswith_sep pos_dir = true ∧ endswith_sep neg_dir = true
      ∧ ∀ cls dir, paths !! cls = Some dir → dir = pos_dir ∨ dir = neg_dir.
Proof.
  unfold path_dict.
  destruct (decide (subset = "train")) as [->|H1].
  { rewrite lookup_insert_eq. intros [= <-]. split; [by left|].
    eexists _, _. repeat (split; [reflexivity|]). intros cls dir.
    destruct (decide (cls = "normal")) as [->|Hn].
    { rewrite lookup_insert_eq. intros [= <-]. by right. }
    rewrite lookup_insert_ne by done.
    destruct (decide (cls = "pneumonia")) as [->|Hp].
    { rewrite lookup_singleton_eq. intros [= <-]. by left. }
    by rewrite lookup_singleton_ne. }
  rewrite lookup_insert_ne by done.
  destruct (decide (subset = "test")) as [->|H2].
  { rewrite lookup_insert_eq. intros [= <-]. split; [by right; left|].
    eexists _, _. repeat (split; [reflexivity|]). intros cls dir.
    destruct (decide (cls = "normal")) as [->|Hn].
    { rewrite lookup_insert_eq. intros [= <-]. by right. }
    rewrite lookup_insert_ne by done.
    destruct (decide (cls = "pneumonia")) as [->|Hp].
    { rewrite lookup_singleton_eq. intros [= <-]. by left. }
    by rewrite lookup_singleton_ne. }
  rewrite lookup_insert_ne by done.
  destruct (decide (subset = "validation")) as [->|H3].
  { rewrite lookup_singleton_eq. intros [= <-]. split; [by right; right|].
    eexists _, _. repeat (split; [reflexivity|]). intros cls dir.
    destruct (decide (cls = "normal")) as [->|Hn].
    { rewrite lookup_insert_eq. intros [= <-]. by right. }
    rewrite lookup_insert_ne by done.
    destruct (decide (cls = "pneumonia")) as [->|Hp].
    { rewrite lookup_singleton_eq. intros [= <-]. by left. }
    by rewrite lookup_singleton_ne. }
  by rewrite lookup_singleton_ne.
Qed.

(** The exceptions of a call, with the path table of the module: a
    [KeyError] for an unknown split name, an [OSError] for one of the two
    directories of the split, the OpenCV error of an undecodable file, or
    the [ValueError] of [np.concatenate] for arrays of different numbers of
    dimensions.  In particular no [KeyError] is raised for 'train', 'test'
    and 'validation', and the images never differ in shape. *)
Theorem load_images_exceptions cv_interp w subset e :
  w_path_dict w = path_dict →
  (load_images cv_interp subset w).1 = Err e →
  (e = KeyError subset ∧ path_dict !! subset = None)
  ∨ (∃ cls dir, class_dir path_dict subset cls = Some dir
       ∧ fs_listdir (w_fs w) dir = None ∧ e = OSError dir)
  ∨ e = cv2_error
  ∨ e = ValueError DimensionCountMismatch.
Proof.
  intros Hw Hrun. pose proof Hrun as Hfst.
  rewrite load_images_fst, Hw in Hfst. unfold dataset_of in Hfst.
  destruct (path_dict !! subset) as [paths|] eqn:Hs.
  2: { left. by injection Hfst as <-. }
  destruct (path_dict_lookup _ _ Hs) as (_ & pos_dir & neg_dir & Hp & Hn & _).
  rewrite Hp, Hn in Hfst.
  destruct (files_of (w_fs w) pos_dir) as [pos|] eqn:Hfp.
  2: { right. left. exists "pneumonia", pos_dir. injection Hfst as <-.
       unfold class_dir. rewrite Hs. simpl. split; [done|]. split; [|done].
       unfold files_of in Hfp. by destruct (fs_listdir (w_fs w) pos_dir). }
  destruct (files_of (w_fs w) neg_dir) as [neg|] eqn:Hfn.
  2: { right. left. exists "normal", neg_dir. injection Hfst as <-.
       unfold class_dir. rewrite Hs. simpl. split; [done|]. split; [|done].
       unfold files_of in Hfn. by destruct (fs_listdir (w_fs w) neg_dir). }
  assert (Hsplit : split w subset pos_dir neg_dir pos neg).
  { eapply split_of_lookups; eauto. by rewrite Hw. }
  destruct (load_images_cases cv_interp _ _ _ _ _ _ Hsplit)
    as [(pi & ni & _ & _ & _ & _ & _ & Hcases) | [Herr _]].
  2: { right. right. left. congruence. }
  destruct Hcases as [(_ & _ & Hok) | [(_ & _ & Hok) | (_ & Herr)]];
    [congruence | congruence |].
  right. right. right. congruence.
Qed.

Lemma load_images_exceptions_witness :
  (load_images nearest "train" (boot train_no_normal_dir)).1
  = Err (OSError "chest_xray/train/NORMAL/")
  ∧ ((OSError "chest_xray/train/NORMAL/" = KeyError "train"
      ∧ path_dict !! "train" = None)
     ∨ (∃ cls dir, class_dir path_dict "train" cls = Some dir
          ∧ fs_listdir (w_fs (boot train_no_normal_dir)) dir = None
          ∧ OSError "chest_xray/train/NORMAL/" = OSError dir)
     ∨ OSError "chest_xray/train/NORMAL/" = cv2_error
     ∨ OSError "chest_xray/train/NORMAL/" = ValueError DimensionCountMismatch).
Proof.
  assert (Hrun : (load_images nearest "train" (boot train_no_normal_dir)).1
                 = Err (OSError "chest_xray/train/NORMAL/"))
    by (vm_compute; reflexivity).
  split; [exact Hrun|].
  apply (load_images_exceptions nearest (boot train_no_normal_dir) "train");
    [reflexivity | exact Hrun].
Defined.

(** ** The path tested is the path read *)

(** For every directory of the path table and every entry name that does
    not start with a slash, [join(dir, name)], the path [isfile] is asked
    about, is [dir + name], the path [cv.imread] is given. *)
Theorem join_class_dir subset cls dir name :
  class_dir path_dict subset cls = Some dir →
  startswith_sep name = false →
  join dir name = dir +:+ name.
Proof.
  unfold class_dir. intros Hdir Hname.
  destruct (path_dict !! subset) as [paths|] eqn:Hs; [|done]. simpl in Hdir.
  destruct (path_dict_lookup _ _ Hs)
    as (_ & pos_dir & neg_dir & _ & _ & Hep & Hen & Hall).
  unfold join. rewrite Hname.
  destruct (Hall cls dir Hdir) as [-> | ->].
  - rewrite Hep. by rewrite orb_true_r.
  - rewrite Hen. by rewrite orb_true_r.
Qed.

Lemma join_class_dir_witness :
  class_dir path_dict "validation" "normal" = Some "chest_xray/val/NORMAL/"
  ∧ startswith_sep "IM-0001.jpeg" = false
  ∧ join "chest_xray/val/NORMAL/" "IM-0001.jpeg"
    = "chest_xray/val/NORMAL/" +:+ "IM-0001.jpeg".
Proof.
  split; [by_evaluation|]. split; [reflexivity|].
  apply (join_class_dir "validation" "normal"); [by_evaluation | reflexivity].
Defined.

(** ** The reads of a call, in order *)

(** On a split whose regular files are all decodable a call lists the
    pneumonia directory and tests each entry, does the same for the normal
    directory, and then decodes the regular pneumonia files and the regular
    normal files, each once and in listing order.  An entry that is not a
    regular file is never decoded. *)
Theorem load_images_reads cv_interp w subset pos_dir neg_dir pos_names neg_names :
  class_dir (w_path_dict w) subset "pneumonia" = Some pos_dir →
  class_dir (w_path_dict w) subset "normal" = Some neg_dir →
  fs_listdir (w_fs w) pos_dir = Some pos_names →
  fs_listdir (w_fs w) neg_dir = Some neg_names →
  Forall (decodable (w_fs w) pos_dir) (keep_regular (w_fs w) pos_dir pos_names) →
  Forall (decodable (w_fs w) neg_dir) (keep_regular (w_fs w) neg_dir neg_names) →
  w_reads (load_images cv_interp subset w).2
  = w_reads w
    ++ listing_reads pos_dir pos_names ++ listing_reads neg_dir neg_names
    ++ decoding_reads pos_dir (keep_regular (w_fs w) pos_dir pos_names)
    ++ decoding_reads neg_dir (keep_regular (w_fs w) neg_dir neg_names).
Proof.
  intros Hp Hn Hlp Hln Hdp Hdn.
  apply class_dir_lookup in Hp as (paths & Hs & Hp).
  apply class_dir_lookup in Hn as (paths' & Hs' & Hn).
  assert (paths' = paths) as -> by congruence.
  rewrite (load_images_run cv_interp subset w paths pos_dir neg_dir
             pos_names neg_names) by done.
  simpl.
  destruct (decode_all_decodable cv_interp _ _ _ Hdp) as (pos_images & Hpi).
  destruct (decode_all_decodable cv_interp _ _ _ Hdn) as (neg_images & Hni).
  rewrite Hpi.
  by rewrite (attempted_all _ _ _ _ _ Hpi), (attempted_all _ _ _ _ _ Hni).
Qed.

Lemma load_images_reads_witness :
  fs_listdir train_mixed "chest_xray/train/PNEUMONIA/"
  = Some ["p1.jpeg"; "old"; "p2.jpeg"]
  ∧ w_reads (load_images nearest "train" (boot train_mixed)).2
    = [Listdir "chest_xray/train/PNEUMONIA/";
       Isfile "chest_xray/train/PNEUMONIA/p1.jpeg";
       Isfile "chest_xray/train/PNEUMONIA/old";
       Isfile "chest_xray/train/PNEUMONIA/p2.jpeg";
       Listdir "chest_xray/train/NORMAL/";
       Isfile "chest_xray/train/NORMAL/n1.jpeg";
       Imread "chest_xray/train/PNEUMONIA/p1.jpeg";
       Imread "chest_xray/train/PNEUMONIA/p2.jpeg";
       Imread "chest_xray/train/NORMAL/n1.jpeg"].
Proof.
  split; [reflexivity|].
  apply (load_images_reads nearest (boot train_mixed) "train"
           "chest_xray/train/PNEUMONIA/" "chest_xray/train/NORMAL/"
           ["p1.jpeg"; "old"; "p2.jpeg"] ["n1.jpeg"]).
  - by_evaluation.
  - by_evaluation.
  - by_evaluation.
  - by_evaluation.
  - change (keep_regular (w_fs (boot train_mixed)) "chest_xray/train/PNEUMONIA/"
              ["p1.jpeg"; "old"; "p2.jpeg"]) with ["p1.jpeg"; "p2.jpeg"].
    by_evaluation.
  - change (keep_regular (w_fs (boot train_mixed)) "chest_xray/train/NORMAL/"
              ["n1.jpeg"]) with ["n1.jpeg"].
    by_evaluation.
Defined.

(** A corrupt pneumonia file stops the call where it stands: the files
    before it have been decoded, the file itself has been tried, and
    neither a later pneumonia file nor any normal file is opened. *)
Theorem load_images_stops_at_corrupt cv_interp w subset pos_dir neg_dir
    pos_names neg_names before bad after :
  class_dir (w_path_dict w) subset "pneumonia" = Some pos_dir →
  class_dir (w_path_dict w) subset "normal" = Some neg_dir →
  fs_listdir (w_fs w) pos_dir = Some pos_names →
  fs_listdir (w_fs w) neg_dir = Some neg_names →
  keep_regular (w_fs w) pos_dir pos_names = before ++ bad :: after →
  Forall (decodable (w_fs w) pos_dir) before →
  fs_imread (w_fs w) (pos_dir +:+ bad) = None →
  (load_images cv_interp subset w).1 = Err cv2_error
  ∧ w_reads (load_images cv_interp subset w).2
    = w_reads w
      ++ listing_reads pos_dir pos_names ++ listing_reads neg_dir neg_names
      ++ decoding_reads pos_dir (before ++ [bad]).
Proof.
  intros Hp Hn Hlp Hln Hfiles Hgood Hbad.
  assert (Hdec : is_ok (decode cv_interp (w_fs w) pos_dir bad) = false).
  { by rewrite (decode_unreadable _ _ _ _ Hbad). }
  destruct (attempted_until cv_interp _ _ before bad after Hgood Hdec)
    as [Hatt Hall].
  apply class_dir_lookup in Hp as (paths & Hs & Hp).
  apply class_dir_lookup in Hn as (paths' & Hs' & Hn).
  assert (paths' = paths) as -> by congruence.
  split.
  - rewrite load_images_fst. unfold dataset_of, files_of.
    rewrite Hs, Hp, Hn, Hlp, Hln. simpl. by rewrite Hfiles, Hall.
  - rewrite (load_images_run cv_interp subset w paths pos_dir neg_dir
               pos_names neg_names) by done.
    simpl. rewrite Hfiles, Hall, Hatt. by rewrite app_nil_r.
Qed.

Lemma load_images_stops_at_corrupt_witness :
  fs_listdir train_corrupt_first "chest_xray/train/PNEUMONIA/"
  = Some ["p1.jpeg"; "p2.jpeg"; "p3.jpeg"]
  ∧ fs_imread train_corrupt_first ("chest_xray/train/PNEUMONIA/" +:+ "p2.jpeg") = None
  ∧ (load_images nearest "train" (boot train_corrupt_first)).1 = Err cv2_error
  ∧ w_reads (load_images nearest "train" (boot train_corrupt_first)).2
    = [Listdir "chest_xray/train/PNEUMONIA/";
       Isfile "chest_xray/train/PNEUMONIA/p1.jpeg";
       Isfile "chest_xray/train/PNEUMONIA/p2.jpeg";
       Isfile "chest_xray/train/PNEUMONIA/p3.jpeg";
       Listdir "chest_xray/train/NORMAL/";
       Isfile "chest_xray/train/NORMAL/n1.jpeg";
       Imread "chest_xray/train/PNEUMONIA/p1.jpeg";
       Imread "chest_xray/train/PNEUMONIA/p2.jpeg"].
Proof.
  split; [reflexivity|]. split; [reflexivity|].
  apply (load_images_stops_at_corrupt nearest (boot train_corrupt_first) "train"
           "chest_xray/train/PNEUMONIA/" "chest_xray/train/NORMAL/"
           ["p1.jpeg"; "p2.jpeg"; "p3.jpeg"] ["n1.jpeg"]
           ["p1.jpeg"] "p2.jpeg" ["p3.jpeg"]);
    by_evaluation.
Defined.

(** The head of a call, up to the listing of the first directory. *)
Ltac run_to_listdir Hs Hp Hn :=
  unfold bind at 1, print; unfold bind at 1, global_path_dict; simpl;
  unfold bind at 1, getitem at 1; rewrite Hs; simpl;
  unfold bind at 1, getitem at 1; rewrite Hp; simpl;
  unfold bind at 1; simpl;
  unfold bind at 1, getitem at 1; rewrite Hs; simpl;
  unfold bind at 1, getitem at 1; rewrite Hn; simpl;
  unfold bind at 1, listdir at 1; simpl.

(** A class directory that cannot be listed ends the call with [OSError]
    before any file is decoded.  Without the pneumonia directory nothing
    else is read; without the normal directory the pneumonia directory has
    been listed and its entries tested. *)
Theorem load_images_missing_directory cv_interp w subset pos_dir neg_dir :
  class_dir (w_path_dict w) subset "pneumonia" = Some pos_dir →
  class_dir (w_path_dict w) subset "normal" = Some neg_dir →
  (fs_listdir (w_fs w) pos_dir = None →
   (load_images cv_interp subset w).1 = Err (OSError pos_dir)
   ∧ w_reads (load_images cv_interp subset w).2 = w_reads w ++ [Listdir pos_dir])
  ∧ (∀ pos_names,
       fs_listdir (w_fs w) pos_dir = Some pos_names →
       fs_listdir (w_fs w) neg_dir = None →
       (load_images cv_interp subset w).1 = Err (OSError neg_dir)
       ∧ w_reads (load_images cv_interp subset w).2
         = w_reads w ++ listing_reads pos_dir pos_names ++ [Listdir neg_dir]).
Proof.
  intros Hp Hn.
  apply class_dir_lookup in Hp as (paths & Hs & Hp).
  apply class_dir_lookup in Hn as (paths' & Hs' & Hn).
  assert (paths' = paths) as -> by congruence.
  destruct w as [table fs out reads]. simpl in *.
  split.
  - intros Hlp.
    assert (Hrun : load_images cv_interp subset (World table fs out reads)
      = (Err (OSError pos_dir),
         World table fs (out ++ ["Loading data, subset = " +:+ subset])
               (reads ++ [Listdir pos_dir]))).
    { unfold load_images. run_to_listdir Hs Hp Hn. by rewrite Hlp. }
    by rewrite Hrun.
  - intros pos_names Hlp Hln.
    assert (Hrun : load_images cv_interp subset (World table fs out reads)
      = (Err (OSError neg_dir),
         World table fs (out ++ ["Loading data, subset = " +:+ subset])
               (reads ++ listing_reads pos_dir pos_names ++ [Listdir neg_dir]))).
    { unfold load_images. run_to_listdir Hs Hp Hn. rewrite Hlp.
      unfold bind at 1. rewrite regular_files_run. simpl.
      unfold bind at 1, listdir at 1. simpl. rewrite Hln. simpl.
      unfold log_read. simpl. f_equal. f_equal.
      unfold listing_reads. by right_nested. }
    by rewrite Hrun.
Qed.

Lemma load_images_missing_directory_witness :
  fs_listdir train_no_normal_dir "chest_xray/train/PNEUMONIA/"
  = Some ["p1.jpeg"; "notes"]
  ∧ fs_listdir train_no_normal_dir "chest_xray/train/NORMAL/" = None
  ∧ (load_images nearest "train" (boot train_no_normal_dir)).1
    = Err (OSError "chest_xray/train/NORMAL/")
  ∧ w_reads (load_images nearest "train" (boot train_no_normal_dir)).2
    = [Listdir "chest_xray/train/PNEUMONIA/";
       Isfile "chest_xray/train/PNEUMONIA/p1.jpeg";
       Isfile "chest_xray/train/PNEUMONIA/notes";
       Listdir "chest_xray/train/NORMAL/"].
Proof.
  split; [reflexivity|]. split; [reflexivity|].
  destruct (load_images_missing_directory nearest (boot train_no_normal_dir)
              "train" "chest_xray/train/PNEUMONIA/" "chest_xray/train/NORMAL/")
    as [_ Hnormal]; [by_evaluation | by_evaluation |].
  apply (Hnormal ["p1.jpeg"; "notes"]); reflexivity.
Defined.

(** * The head of main *)

(** ** Flattening the images *)

Lemma length_ravel img :
  length (ravel img) = (img_rows img * img_cols img)%nat.
Proof.
  unfold ravel. rewrite length_join.
  rewrite <- list_fmap_compose.
  rewrite (sum_list_fmap_same (img_cols img)).
  - by rewrite length_seq.
  - apply Forall_forall. intros i _. simpl. by rewrite length_fmap, length_seq.
Qed.

(** Row-major order: pixel (i, j) is at position i * cols + j. *)
Lemma ravel_lookup img i j :
  (i < img_rows img)%nat → (j < img_cols img)%nat →
  ravel img !! (i * img_cols img + j)%nat = Some (img_px img i j).
Proof.
  intros Hi Hj. unfold ravel.
  apply (join_lookup_Some_same_length' (img_cols img)); [|done|].
  - apply Forall_forall. intros l (k & -> & _)%list_elem_of_fmap.
    by rewrite length_fmap, length_seq.
  - exists (img_px img i <$> seq 0 (img_cols img)). split.
    + by rewrite list_lookup_fmap, lookup_seq_lt.
    + by rewrite list_lookup_fmap, lookup_seq_lt.
Qed.

Lemma rows_of_stack (items : list image) cols :
  Forall (λ img, length (ravel img) = cols) items →
  rows_of (length items) cols (mjoin (ravel <$> items)) = ravel <$> items.
Proof.
  induction 1 as [|img rest Hlen _ IH]; [done|].
  cbn [length fmap list_fmap mjoin list_join rows_of].
  rewrite take_app_length' by done. rewrite drop_app_length' by done.
  f_equal. exact IH.
Qed.

Lemma flatten_images_stack k nx ny items :
  length items = k →
  Forall (λ img, img_rows img = nx ∧ img_cols img = ny) items →
  flatten_images (NDArray [k; nx; ny] items) = inr (ravel <$> items).
Proof.
  intros <- Hshape. unfold flatten_images, reshape, arr_size, arr_data.
  cbn [arr_shape arr_items foldr].
  rewrite Nat.mul_1_r, Nat.eqb_refl. f_equal.
  apply rows_of_stack. eapply Forall_impl; [exact Hshape|].
  intros img [<- <-]. apply length_ravel.
Qed.

(** Flattening a stack of [k] images of [nx] by [ny] pixels gives [k]
    rows of [nx * ny] values; pixel (i, j) of image number s is at column
    i * ny + j of row s. *)
Theorem flatten_images_pixel k nx ny items :
  length items = k →
  Forall (λ img, img_rows img = nx ∧ img_cols img = ny) items →
  ∃ rows,
    flatten_images (NDArray [k; nx; ny] items) = inr rows
    ∧ length rows = k
    ∧ ∀ s img i j, items !! s = Some img → (i < nx)%nat → (j < ny)%nat →
        ∃ row, rows !! s = Some row
               ∧ length row = (nx * ny)%nat
               ∧ row !! (i * ny + j)%nat = Some (img_px img i j).
Proof.
  intros Hk Hshape. exists (ravel <$> items).
  split; [by apply flatten_images_stack|].
  split; [by rewrite length_fmap|].
  intros s img i j Hs Hi Hj. exists (ravel img).
  rewrite list_lookup_fmap, Hs. split; [done|].
  rewrite Forall_forall in Hshape.
  destruct (Hshape img) as [<- <-]; [by eapply list_elem_of_lookup_2|].
  split; [apply length_ravel | by apply ravel_lookup].
Qed.

Lemma flatten_images_pixel_witness :
  ∃ rows,
    flatten_images (NDArray [2; 2; 3]%nat [xray 2 3; Image 2 3 (λ i j, 7)])
    = inr rows
    ∧ length rows = 2%nat
    ∧ ∀ s img i j,
        [xray 2 3; Image 2 3 (λ i j, 7)] !! s = Some img →
        (i < 2)%nat → (j < 3)%nat →
        ∃ row, rows !! s = Some row
               ∧ length row = (2 * 3)%nat
               ∧ row !! (i * 3 + j)%nat = Some (img_px img i j).
Proof.
  apply (flatten_images_pixel 2 2 3 [xray 2 3; Image 2 3 (λ i j, 7)]).
  - reflexivity.
  - repeat constructor.
Defined.

(** ** Loading both splits *)

(** The array of a returned dataset is the empty array, which cannot be
    flattened, or a stack of 150 by 150 images, which can. *)
Lemma flatten_images_loaded cv_interp w subset images labels :
  (load_images cv_interp subset w).1 = Ok (images, labels) →
  (labels = [] ∧ flatten_images images = inl (UnpackError 3 1))
  ∨ (labels ≠ []
     ∧ flatten_images images = inr (ravel <$> arr_items images)
     ∧ length (arr_items images) = length labels
     ∧ Forall (λ row, length row = (150 * 150)%nat) (ravel <$> arr_items images)).
Proof.
  intros Hrun.
  destruct (load_images_ok_split _ _ _ _ Hrun)
    as (pos_dir & neg_dir & pos & neg & Hsplit).
  destruct (load_images_cases cv_interp _ _ _ _ _ _ Hsplit)
    as [(pi & ni & _ & _ & Hlp & Hln & Hshape & Hcases) | [Herr _]].
  2: { by rewrite Herr in Hrun. }
  destruct Hcases as [(_ & _ & Hok) | [(Hp & _ & Hok) | (_ & Herr)]];
    rewrite Hrun in *; simplify_eq.
  - by left.
  - right. split; [by destruct pos|].
    assert (Hrc : Forall (λ img, img_rows img = 150%nat ∧ img_cols img = 150%nat)
                         (pi ++ ni)).
    { eapply Forall_impl; [exact Hshape|]. by intros img [= -> ->]. }
    split; [|split].
    + cbn [arr_items].
      apply flatten_images_stack; [|done]. by rewrite length_app, Hlp, Hln.
    + cbn [arr_items]. by rewrite !length_app, !length_replicate, Hlp, Hln.
    + cbn [arr_items]. apply Forall_fmap. eapply Forall_impl; [exact Hrc|].
      intros img [Hr Hc]. cbn. by rewrite length_ravel, Hr, Hc.
Qed.

(** The second call of main does not depend on what the first one did:
    the outcome of the head of main is read off the outcomes of the two
    calls in the world main starts in. *)
Lemma main_head_fst cv_interp w :
  (main_head cv_interp w).1
  = match (load_images cv_interp "train" w).1 with
    | Err e => inl (Raised e)
    | Ok (X_train, y_train) =>
    match (load_images cv_interp "test" w).1 with
    | Err e => inl (Raised e)
    | Ok (X_test, y_test) =>
    match flatten_images X_train with
    | inl e => inl e
    | inr X_train_svm =>
    match flatten_images X_test with
    | inl e => inl e
    | inr X_test_svm => inr (X_train_svm, y_train, X_test_svm, y_test)
    end end end end.
Proof.
  unfold main_head.
  destruct (load_images_snd cv_interp "train" w) as (Hp & Hf & _).
  destruct (load_images cv_interp "train" w) as [[[X_train y_train]|e] w1];
    cbn [fst snd] in *; [|done].
  assert (Htest : (load_images cv_interp "test" w1).1
                  = (load_images cv_interp "test" w).1).
  { rewrite !load_images_fst. by rewrite Hp, Hf. }
  rewrite <- Htest.
  destruct (load_images cv_interp "test" w1) as [[[X_test y_test]|e] w2];
    cbn [fst snd]; [|done].
  destruct (flatten_images X_train); [done|].
  by destruct (flatten_images X_test).
Qed.

Lemma main_head_stdout cv_interp w :
  is_ok (load_images cv_interp "train" w).1 = true →
  is_ok (load_images cv_interp "test" w).1 = true →
  w_stdout (main_head cv_interp w).2
  = w_stdout w ++ ["Loading data, subset = train";
                   "Loading data, subset = test";
                   "Training SVM classifier..."].
Proof.
  unfold main_head.
  destruct (load_images_snd cv_interp "train" w) as (Hp & Hf & Ho & _).
  destruct (load_images cv_interp "train" w) as [[[X_train y_train]|e] w1];
    cbn [fst snd is_ok] in *; [|done].
  intros _.
  assert (Htest : (load_images cv_interp "test" w1).1
                  = (load_images cv_interp "test" w).1).
  { rewrite !load_images_fst. by rewrite Hp, Hf. }
  rewrite <- Htest.
  destruct (load_images_snd cv_interp "test" w1) as (_ & _ & Ho2 & _).
  destruct (load_images cv_interp "test" w1) as [[[X_test y_test]|e] w2];
    cbn [fst snd is_ok] in *; [|done].
  intros _.
  assert (Hout : w_stdout (emit "Training SVM classifier..." w2)
    = w_stdout w ++ ["Loading data, subset = train";
                     "Loading data, subset = test";
                     "Training SVM classifier..."]).
  { cbn [emit w_stdout]. rewrite Ho2. cbn [emit w_stdout]. rewrite Ho.
    cbn [emit w_stdout]. by rewrite <- !app_assoc. }
  destruct (flatten_images X_train); [done|].
  by destruct (flatten_images X_test).
Qed.

(** When both splits have files of both classes, all decodable, the head
    of main prints its three progress lines and hands to the SVM one row of
    150 * 150 values per image: the rows are the flattened images of the
    two calls, in their order, next to the labels of the calls. *)
Theorem main_head_flattens cv_interp w
    train_pos_dir train_neg_dir train_pos train_neg
    test_pos_dir test_neg_dir test_pos test_neg :
  split w "train" train_pos_dir train_neg_dir train_pos train_neg →
  split w "test" test_pos_dir test_neg_dir test_pos test_neg →
  Forall (decodable (w_fs w) train_pos_dir) train_pos →
  Forall (decodable (w_fs w) train_neg_dir) train_neg →
  Forall (decodable (w_fs w) test_pos_dir) test_pos →
  Forall (decodable (w_fs w) test_neg_dir) test_neg →
  train_pos ≠ [] → train_neg ≠ [] → test_pos ≠ [] → test_neg ≠ [] →
  ∃ X_train y_train X_test y_test,
    (load_images cv_interp "train" w).1 = Ok (X_train, y_train)
    ∧ (load_images cv_interp "test" w).1 = Ok (X_test, y_test)
    ∧ (main_head cv_interp w).1
      = inr (ravel <$> arr_items X_train, y_train,
             ravel <$> arr_items X_test, y_test)
    ∧ length (arr_items X_train) = (length train_pos + length train_neg)%nat
    ∧ length (arr_items X_test) = (length test_pos + length test_neg)%nat
    ∧ y_train = replicate (length train_pos) 1 ++ replicate (length train_neg) 0
    ∧ y_test = replicate (length test_pos) 1 ++ replicate (length test_neg) 0
    ∧ Forall (λ row, length row = (150 * 150)%nat) (ravel <$> arr_items X_train)
    ∧ Forall (λ row, length row = (150 * 150)%nat) (ravel <$> arr_items X_test)
    ∧ w_stdout (main_head cv_interp w).2
      = w_stdout w ++ ["Loading data, subset = train";
                       "Loading data, subset = test";
                       "Training SVM classifier..."].
Proof.
  intros Htrain Htest Hd1 Hd2 Hd3 Hd4 Hn1 Hn2 Hn3 Hn4.
  destruct (load_images_both cv_interp _ _ _ _ _ _ Htrain Hd1 Hd2 Hn1 Hn2)
    as (pi1 & ni1 & Hpi1 & Hni1 & Hrun1).
  destruct (load_images_both cv_interp _ _ _ _ _ _ Htest Hd3 Hd4 Hn3 Hn4)
    as (pi2 & ni2 & Hpi2 & Hni2 & Hrun2).
  eexists _, _, _, _. split; [exact Hrun1|]. split; [exact Hrun2|].
  destruct (flatten_images_loaded _ _ _ _ _ Hrun1)
    as [[Hnil _] | (_ & Hflat1 & Hlen1 & Hrows1)].
  { destruct train_pos; done. }
  destruct (flatten_images_loaded _ _ _ _ _ Hrun2)
    as [[Hnil _] | (_ & Hflat2 & Hlen2 & Hrows2)].
  { destruct test_pos; done. }
  split.
  { by rewrite main_head_fst, Hrun1, Hrun2, Hflat1, Hflat2. }
  rewrite Hlen1, Hlen2, !length_app, !length_replicate.
  repeat (split; [done|]).
  apply main_head_stdout; [by rewrite Hrun1 | by rewrite Hrun2].
Qed.

Lemma main_head_flattens_witness :
  split (boot chest_xray) "train"
        "chest_xray/train/PNEUMONIA/" "chest_xray/train/NORMAL/"
        ["p1.jpeg"; "p2.jpeg"] ["n1.jpeg"]
  ∧ split (boot chest_xray) "test"
          "chest_xray/test/PNEUMONIA/" "chest_xray/test/NORMAL/"
          ["p9.jpeg"] ["n9.jpeg"]
  ∧ ∃ X_train y_train X_test y_test,
      (load_images nearest "train" (boot chest_xray)).1 = Ok (X_train, y_train)
      ∧ (load_images nearest "test" (boot chest_xray)).1 = Ok (X_test, y_test)
      ∧ (main_head nearest (boot chest_xray)).1
        = inr (ravel <$> arr_items X_train, y_train,
               ravel <$> arr_items X_test, y_test)
      ∧ length (arr_items X_train) = 3%nat
      ∧ length (arr_items X_test) = 2%nat
      ∧ y_train = [1; 1; 0]
      ∧ y_test = [1; 0]
      ∧ Forall (λ row, length row = (150 * 150)%nat) (ravel <$> arr_items X_train)
      ∧ Forall (λ row, length row = (150 * 150)%nat) (ravel <$> arr_items X_test)
      ∧ w_stdout (main_head nearest (boot chest_xray)).2
        = ["Loading data, subset = train";
           "Loading data, subset = test";
           "Training SVM classifier..."].
Proof.
  split; [by_evaluation|]. split; [by_evaluation|].
  apply (main_head_flattens nearest (boot chest_xray)
           "chest_xray/train/PNEUMONIA/" "chest_xray/train/NORMAL/"
           ["p1.jpeg"; "p2.jpeg"] ["n1.jpeg"]
           "chest_xray/test/PNEUMONIA/" "chest_xray/test/NORMAL/"
           ["p9.jpeg"] ["n9.jpeg"]);
    by_evaluation.
Defined.

(** A split without any file gets through its call, which returns no
    label and the empty array, and stops main at the unpacking of the
    shape: after both splits were loaded and the third progress line
    printed, main raises for a shape of one entry where three are
    expected. *)
Theorem main_head_empty_split cv_interp w X_train y_train X_test y_test :
  (load_images cv_interp "train" w).1 = Ok (X_train, y_train) →
  (load_images cv_interp "test" w).1 = Ok (X_test, y_test) →
  y_train = [] ∨ y_test = [] →
  (main_head cv_interp w).1 = inl (UnpackError 3 1)
  ∧ w_stdout (main_head cv_interp w).2
    = w_stdout w ++ ["Loading data, subset = train";
                     "Loading data, subset = test";
                     "Training SVM classifier..."].
Proof.
  intros Hrun1 Hrun2 Hempty. split.
  - rewrite main_head_fst, Hrun1, Hrun2.
    destruct (flatten_images_loaded _ _ _ _ _ Hrun1)
      as [[Hnil1 ->] | (Hne1 & -> & _)]; [done|].
    destruct (flatten_images_loaded _ _ _ _ _ Hrun2)
      as [[Hnil2 ->] | (Hne2 & -> & _)]; [done|].
    by destruct Hempty.
  - apply main_head_stdout; [by rewrite Hrun1 | by rewrite Hrun2].
Qed.

Lemma main_head_empty_split_witness :
  (load_images nearest "train" (boot chest_xray_no_train)).1
  = Ok (NDArray [0%nat] [], [])
  ∧ (load_images nearest "test" (boot chest_xray_no_train)).1
    = Ok (NDArray [2; 150; 150]%nat
            [Image 150 150 (nearest (xray 3 3) 150 150);
             Image 150 150 (nearest (xray 7 5) 150 150)],
          [1; 0])
  ∧ (main_head nearest (boot chest_xray_no_train)).1 = inl (UnpackError 3 1)
  ∧ w_stdout (main_head nearest (boot chest_xray_no_train)).2
    = ["Loading data, subset = train";
       "Loading data, subset = test";
       "Training SVM classifier..."].
Proof.
  assert (Hrun1 : (load_images nearest "train" (boot chest_xray_no_train)).1
                  = Ok (NDArray [0%nat] [], [])) by (vm_compute; reflexivity).
  assert (Hrun2 : (load_images nearest "test" (boot chest_xray_no_train)).1
    = Ok (NDArray [2; 150; 150]%nat
            [Image 150 150 (nearest (xray 3 3) 150 150);
             Image 150 150 (nearest (xray 7 5) 150 150)],
          [1; 0])) by (vm_compute; reflexivity).
  split; [exact Hrun1|]. split; [exact Hrun2|].
  apply (main_head_empty_split nearest (boot chest_xray_no_train)
           _ _ _ _ Hrun1 Hrun2).
  by left.
Defined.

(** The head of main fails in two ways only: with the exception of one
    of the two calls (the one on the test split only once the one on the
    train split has returned), or at the unpacking of the shape of an
    empty array once both calls have returned.  The reshape itself never
    fails. *)
Theorem main_head_errors cv_interp w e :
  (main_head cv_interp w).1 = inl e →
  (∃ e', e = Raised e'
         ∧ ((load_images cv_interp "train" w).1 = Err e'
            ∨ (is_ok (load_images cv_interp "train" w).1 = true
               ∧ (load_images cv_interp "test" w).1 = Err e')))
  ∨ (e = UnpackError 3 1
     ∧ is_ok (load_images cv_interp "train" w).1 = true
     ∧ is_ok (load_images cv_interp "test" w).1 = true).
Proof.
  rewrite main_head_fst.
  destruct (load_images cv_interp "train" w).1 as [[X_train y_train]|e1] eqn:Hrun1.
  2: { intros [= <-]. left. exists e1. split; [done|]. by left. }
  destruct (load_images cv_interp "test" w).1 as [[X_test y_test]|e2] eqn:Hrun2.
  2: { intros [= <-]. left. exists e2. split; [done|]. by right. }
  destruct (flatten_images_loaded _ _ _ _ _ Hrun1)
    as [[_ ->] | (_ & -> & _)].
  { intros [= <-]. by right. }
  destruct (flatten_images_loaded _ _ _ _ _ Hrun2)
    as [[_ ->] | (_ & -> & _)]; [|done].
  intros [= <-]. by right.
Qed.

Lemma main_head_errors_witness :
  (main_head nearest (boot train_no_normal_dir)).1
  = inl (Raised (OSError "chest_xray/train/NORMAL/"))
  ∧ ((∃ e', Raised (OSError "chest_xray/train/NORMAL/") = Raised e'
        ∧ ((load_images nearest "train" (boot train_no_normal_dir)).1 = Err e'
           ∨ (is_ok (load_images nearest "train" (boot train_no_normal_dir)).1 = true
              ∧ (load_images nearest "test" (boot train_no_normal_dir)).1 = Err e')))
     ∨ (Raised (OSError "chest_xray/train/NORMAL/") = UnpackError 3 1
        ∧ is_ok (load_images nearest "train" (boot train_no_normal_dir)).1 = true
        ∧ is_ok (load_images nearest "test" (boot train_no_normal_dir)).1 = true)).
Proof.
  assert (Hrun : (main_head nearest (boot train_no_normal_dir)).1
                 = inl (Raised (OSError "chest_xray/train/NORMAL/")))
    by (vm_compute; reflexivity).
  split; [exact Hrun|].
  apply (main_head_errors nearest (boot train_no_normal_dir) _ Hrun).
Defined.

(** A returned dataset with at least one label has both labels. *)
Lemma load_images_both_labels cv_interp w subset images labels :
  (load_images cv_interp subset w).1 = Ok (images, labels) →
  labels ≠ [] → 1 ∈ labels ∧ 0 ∈ labels.
Proof.
  intros Hrun Hne.
  destruct (load_images_ok_split _ _ _ _ Hrun)
    as (pos_dir & neg_dir & pos & neg & Hsplit).
  destruct (load_images_cases cv_interp _ _ _ _ _ _ Hsplit)
    as [(pi & ni & _ & _ & _ & _ & _ & Hcases) | [Herr _]].
  2: { by rewrite Herr in Hrun. }
  destruct Hcases as [(_ & _ & Hok) | [(Hp & Hn & Hok) | (_ & Herr)]];
    rewrite Hrun in *; simplify_eq.
  destruct pos as [|p pos], neg as [|n neg]; try done.
  split; rewrite elem_of_app; [left | right]; apply list_elem_of_here.
Qed.

(** When the head of main returns, the SVM gets data it can be fitted
    on: for each split as many rows as labels, every row of 150 * 150
    values, and labels among which both 1 and 0 occur. *)
Theorem main_head_both_classes cv_interp w X_train_svm y_train X_test_svm y_test :
  (main_head cv_interp w).1 = inr (X_train_svm, y_train, X_test_svm, y_test) →
  length X_train_svm = length y_train
  ∧ length X_test_svm = length y_test
  ∧ Forall (λ row, length row = (150 * 150)%nat) (X_train_svm ++ X_test_svm)
  ∧ 1 ∈ y_train ∧ 0 ∈ y_train ∧ 1 ∈ y_test ∧ 0 ∈ y_test.
Proof.
  rewrite main_head_fst.
  destruct (load_images cv_interp "train" w).1 as [[X_train y1]|e1] eqn:Hrun1;
    [|done].
  destruct (load_images cv_interp "test" w).1 as [[X_test y2]|e2] eqn:Hrun2;
    [|done].
  destruct (flatten_images_loaded _ _ _ _ _ Hrun1)
    as [[_ ->] | (Hne1 & -> & Hlen1 & Hrows1)]; [done|].
  destruct (flatten_images_loaded _ _ _ _ _ Hrun2)
    as [[_ ->] | (Hne2 & -> & Hlen2 & Hrows2)]; [done|].
  intros [= <- <- <- <-].
  destruct (load_images_both_labels _ _ _ _ _ Hrun1 Hne1) as [H11 H10].
  destruct (load_images_both_labels _ _ _ _ _ Hrun2 Hne2) as [H21 H20].
  rewrite !length_fmap, Hlen1, Hlen2.
  repeat (split; [done|]). split; [by apply Forall_app|]. done.
Qed.

Lemma main_head_both_classes_witness :
  (main_head nearest (boot chest_xray)).1
  = inr (ravel <$> [Image 150 150 (nearest (xray 4 6) 150 150);
                    Image 150 150 (nearest (xray 150 150) 150 150);
                    Image 150 150 (nearest (xray 2 3) 150 150)],
         [1; 1; 0],
         ravel <$> [Image 150 150 (nearest (xray 3 3) 150 150);
                    Image 150 150 (nearest (xray 7 5) 150 150)],
         [1; 0])
  ∧ 1 ∈ [1; 1; 0] ∧ 0 ∈ [1; 1; 0] ∧ 1 ∈ [1; 0] ∧ 0 ∈ [1; 0].
Proof.
  assert (Hrun1 : (load_images nearest "train" (boot chest_xray)).1
    = Ok (NDArray [3; 150; 150]%nat
            [Image 150 150 (nearest (xray 4 6) 150 150);
             Image 150 150 (nearest (xray 150 150) 150 150);
             Image 150 150 (nearest (xray 2 3) 150 150)],
          [1; 1; 0])) by (vm_compute; reflexivity).
  assert (Hrun2 : (load_images nearest "test" (boot chest_xray)).1
    = Ok (NDArray [2; 150; 150]%nat
            [Image 150 150 (nearest (xray 3 3) 150 150);
             Image 150 150 (nearest (xray 7 5) 150 150)],
          [1; 0])) by (vm_compute; reflexivity).
  assert (Hrun : (main_head nearest (boot chest_xray)).1
    = inr (ravel <$> [Image 150 150 (nearest (xray 4 6) 150 150);
                      Image 150 150 (nearest (xray 150 150) 150 150);
                      Image 150 150 (nearest (xray 2 3) 150 150)],
           [1; 1; 0],
           ravel <$> [Image 150 150 (nearest (xray 3 3) 150 150);
                      Image 150 150 (nearest (xray 7 5) 150 150)],
           [1; 0])).
  { rewrite main_head_fst, Hrun1, Hrun2.
    rewrite (flatten_images_stack 3 150 150) by (by repeat constructor).
    by rewrite (flatten_images_stack 2 150 150) by (by repeat constructor). }
  split; [exact Hrun|].
  destruct (main_head_both_classes nearest (boot chest_xray) _ _ _ _ Hrun)
    as (_ & _ & _ & Hlabels).
  exact Hlabels.
Defined.

(** ** The threshold is monotone *)

(** A larger output never gets a smaller label: for two well-formed
    outputs that are numbers, the second at least the first, the label of
    the second is at least the label of the first. *)
Theorem threshold_monotone x y qx qy :
  is_float32 x → is_float32 y →
  value x = Some qx → value y = Some qy → (qx <= qy)%Q →
  astype_int32 (gt x half) ≤ astype_int32 (gt y half).
Proof.
  intros Hx Hy Hvx Hvy Hle.
  destruct (gt x half) eqn:Hgx; [|by destruct (gt y half)].
  apply (gt_half_spec x Hx) in Hgx as [-> | (q & Hq & Hlt)]; [done|].
  assert (q = qx) as -> by congruence.
  assert (Hgy : gt y half = true).
  { apply (gt_half_spec y Hy). right. exists qy. split; [done|].
    by eapply Qlt_le_trans. }
  by rewrite Hgy.
Qed.

Lemma threshold_monotone_witness :
  is_float32 (S754_finite false 8388608 (-25))
  ∧ is_float32 (S754_finite false 12582912 (-24))
  ∧ (inject_Z 8388608 * 2 ^ (-25) <= inject_Z 12582912 * 2 ^ (-24))%Q
  ∧ astype_int32 (gt (S754_finite false 8388608 (-25)) half)
    ≤ astype_int32 (gt (S754_finite false 12582912 (-24)) half).
Proof.
  assert (Hle : (inject_Z 8388608 * 2 ^ (-25) <= inject_Z 12582912 * 2 ^ (-24))%Q)
    by (vm_compute; discriminate).
  split; [reflexivity|]. split; [reflexivity|]. split; [exact Hle|].
  apply (threshold_monotone (S754_finite false 8388608 (-25))
           (S754_finite false 12582912 (-24))
           (inject_Z 8388608 * 2 ^ (-25))%Q (inject_Z 12582912 * 2 ^ (-24))%Q);
    [reflexivity | reflexivity | reflexivity | reflexivity | exact Hle].
Defined.
